(** * cluttrdev/cli: the version command ([version.go])

    A shallow embedding of [version.go]: the [VersionInfo] interface, its
    [BuildInfo] implementation on top of [runtime/debug] build metadata, and
    the [version] command that selects fields by flags and renders them as a
    text line or as a JSON object.

    Go strings are byte sequences; they are modelled by [string] (a list of
    8-bit [ascii]), so that [len], indexing and slicing count bytes as Go
    does.  Go [int]s are modelled by [Z].  A run-time panic is a value of
    [result].  Pointers that the constructors set are modelled by what they
    point to; [ptr] and [flagUndef] give the provider behind a pointer that
    may be nil, and the flag set with its record of flags set before their
    definition. *)

From Stdlib Require Import ZArith Ascii String List Bool Lia DecimalString.
From stdpp Require Import base gmap strings list sorting.

Local Open Scope string_scope.

(** ** Run-time panics *)

Inductive result (A : Type) : Type :=
| Ok (a : A)
| Panic (msg : string).
Arguments Ok {A} a.
Arguments Panic {A} msg.

(** ** Byte strings *)

(** [len(s)] *)
Definition len (s : string) : Z := Z.of_nat (String.length s).

(** The slice expression [s[:n]]; it panics when [n] exceeds [len(s)]. *)
Definition slice_to (s : string) (n : nat) : result string :=
  if (n <=? String.length s)%nat
  then Ok (String.substring 0 n s)
  else Panic "slice bounds out of range".

Definition byte (c : ascii) : Z := Z.of_nat (nat_of_ascii c).

Definition isDigit (c : ascii) : bool :=
  (48 <=? byte c)%Z && (byte c <=? 57)%Z.

Definition digitVal (c : ascii) : Z := (byte c - 48)%Z.

(** The character ['0' + d] for a digit value [d]. *)
Definition digitChar (d : Z) : ascii := ascii_of_nat (Z.to_nat (48 + d)).

(** ** Package [strconv] *)

Module strconv.

Definition ParseBool (str : string) : option bool :=
  if      String.eqb str "1" || String.eqb str "t" || String.eqb str "T"
       || String.eqb str "true" || String.eqb str "TRUE" || String.eqb str "True"
  then Some true
  else if String.eqb str "0" || String.eqb str "f" || String.eqb str "F"
       || String.eqb str "false" || String.eqb str "FALSE" || String.eqb str "False"
  then Some false
  else None.

Definition FormatBool (b : bool) : string :=
  if b then "true" else "false".

End strconv.

(** ** Package [time]: parsing with the layout [RFC3339] and formatting *)

Module time.

(** What [Parse] and [Format] need of a [Time]: the wall-clock fields, the
    nanoseconds and the zone offset in seconds east of UTC.  [Parse] puts
    the instant in a location whose offset at that instant is the parsed
    one, so that the wall clock [Format] prints is the parsed one. *)
Record Time : Type := mkTime {
  year : Z; month : Z; day : Z;
  hour : Z; min : Z; sec : Z;
  nsec : Z;
  zoneOffset : Z
}.

Definition isLeap (y : Z) : bool :=
  ((y mod 4 =? 0) && (negb (y mod 100 =? 0) || (y mod 400 =? 0)))%Z.

Definition daysIn (m y : Z) : Z :=
  (if (m =? 2) && isLeap y then 29
   else if m =? 2 then 28
   else if (m =? 4) || (m =? 6) || (m =? 9) || (m =? 11) then 30
   else 31)%Z.

(** [getnum]: one or two leading digits; exactly two when [fixed]. *)
Definition getnum (s : string) (fixed : bool) : option (Z * string) :=
  match s with
  | String c0 rest =>
      if isDigit c0 then
        match rest with
        | String c1 rest' =>
            if isDigit c1 then Some (digitVal c0 * 10 + digitVal c1, rest')%Z
            else if fixed then None else Some (digitVal c0, rest)
        | EmptyString => if fixed then None else Some (digitVal c0, rest)
        end
      else None
  | EmptyString => None
  end.

(** [skip] for a one-byte literal prefix of the layout. *)
Definition skip (value : string) (prefix : ascii) : option string :=
  match value with
  | String c rest => if Ascii.eqb c prefix then Some rest else None
  | EmptyString => None
  end.

(** The chunk [2006]: exactly four digits. *)
Definition getLongYear (value : string) : option (Z * string) :=
  match value with
  | String a (String b (String c (String d rest))) =>
      if isDigit a && isDigit b && isDigit c && isDigit d
      then Some (((digitVal a * 10 + digitVal b) * 10 + digitVal c) * 10
                 + digitVal d, rest)%Z
      else None
  | _ => None
  end.

Definition commaOrPeriod (c : ascii) : bool :=
  Ascii.eqb c "." || Ascii.eqb c ",".

(** The digits at the head of [s], and what follows them. *)
Fixpoint spanDigits (s : string) : list Z * string :=
  match s with
  | String c rest =>
      if isDigit c
      then let '(ds, r) := spanDigits rest in (digitVal c :: ds, r)
      else ([], s)
  | EmptyString => ([], s)
  end.

(** [parseNanoseconds]: the first nine digits count, scaled to
    nanoseconds; further digits are dropped. *)
Definition parseNanoseconds (ds : list Z) : Z :=
  let ds9 := take 9 ds in
  (fold_left (fun acc d => acc * 10 + d) ds9 0
   * 10 ^ Z.of_nat (9 - length ds9))%Z.

(** A fractional second in the input that the layout does not have: a
    comma or period followed by at least one digit. *)
Definition getFraction (value : string) : Z * string :=
  match value with
  | String p rest =>
      if commaOrPeriod p then
        match spanDigits rest with
        | ([], _) => (0%Z, value)
        | (ds, rest') => (parseNanoseconds ds, rest')
        end
      else (0%Z, value)
  | EmptyString => (0%Z, value)
  end.

(** The chunk [Z07:00]: [Z], or a sign, two digits, a colon and two digits.
    The range tests allow an offset of 24 hours or 60 minutes. *)
Definition getZone (value : string) : option (Z * string) :=
  match value with
  | String "Z" rest => Some (0%Z, rest)
  | String sign (String h1 (String h2 (String colon (String m1 (String m2 rest))))) =>
      if negb (Ascii.eqb colon ":") then None
      else
        match getnum (String h1 (String h2 EmptyString)) true,
              getnum (String m1 (String m2 EmptyString)) true with
        | Some (hr, _), Some (mm, _) =>
            if (24 <? hr)%Z || (60 <? mm)%Z then None
            else
              let off := ((hr * 60 + mm) * 60)%Z in
              if Ascii.eqb sign "+" then Some (off, rest)
              else if Ascii.eqb sign "-" then Some ((- off)%Z, rest)
              else None
        | _, _ => None
        end
  | _ => None
  end.

Definition check (b : bool) : option unit := if b then Some tt else None.

(** [Parse(RFC3339, value)], layout [2006-01-02T15:04:05Z07:00]; [None]
    stands for a non-nil error. *)
Definition ParseRFC3339 (value : string) : option Time :=
  '(year, value)   ← getLongYear value;
  value            ← skip value "-";
  '(month, value)  ← getnum value true;
  _                ← check ((0 <? month) && (month <=? 12))%Z;
  value            ← skip value "-";
  '(day, value)    ← getnum value true;
  value            ← skip value "T";
  '(hour, value)   ← getnum value false;
  _                ← check (hour <? 24)%Z;
  value            ← skip value ":";
  '(min, value)    ← getnum value true;
  _                ← check (min <? 60)%Z;
  value            ← skip value ":";
  '(sec, value)    ← getnum value true;
  _                ← check (sec <? 60)%Z;
  let '(nsec, value) := getFraction value in
  '(offset, value) ← getZone value;
  _                ← check (String.eqb value EmptyString);
  _                ← check ((1 <=? day) && (day <=? daysIn month year))%Z;
  Some (mkTime year month day hour min sec nsec offset).

(** The layout chunks that occur in the layouts of this development. *)
Inductive chunk : Type :=
| stdYear | stdZeroMonth | stdZeroDay
| stdZeroHour12 | stdZeroMinute | stdZeroSecond
| literal (c : ascii).

(** [std0x]: the chunk for [0] followed by a digit from [1] to [6]. *)
Definition std0x (c : ascii) : option chunk :=
  if Ascii.eqb c "1" then Some stdZeroMonth
  else if Ascii.eqb c "2" then Some stdZeroDay
  else if Ascii.eqb c "3" then Some stdZeroHour12
  else if Ascii.eqb c "4" then Some stdZeroMinute
  else if Ascii.eqb c "5" then Some stdZeroSecond
  else if Ascii.eqb c "6" then Some stdYear
  else None.

(** [nextStdChunk], iterated over the layout, for layouts made of the
    two-digit chunks [01] to [06]; any other byte stands for itself. *)
Fixpoint chunks (layout : string) : list chunk :=
  match layout with
  | EmptyString => []
  | String a rest =>
      match rest with
      | String b rest' =>
          match (if Ascii.eqb a "0" then std0x b else None) with
          | Some std => std :: chunks rest'
          | None => literal a :: chunks rest
          end
      | EmptyString => [literal a]
      end
  end.

(** [appendInt]: the decimal form of [x], zero-padded to [width]. *)
Definition appendInt (x : Z) (width : nat) : string :=
  let u := Z.abs x in
  let sign := if (x <? 0)%Z then "-" else "" in
  if (width =? 2)%nat && (u <? 100)%Z
  then sign +:+ String (digitChar (u / 10)) (String (digitChar (u mod 10)) EmptyString)
  else
    let digits := NilZero.string_of_uint (N.to_uint (Z.to_N u)) in
    sign +:+ String.concat "" (replicate (width - String.length digits) "0") +:+ digits.

Definition formatChunk (t : Time) (c : chunk) : string :=
  match c with
  | stdYear => appendInt (Z.rem (Z.abs (year t)) 100) 2
  | stdZeroMonth => appendInt (month t) 2
  | stdZeroDay => appendInt (day t) 2
  | stdZeroHour12 =>
      let hr := Z.rem (hour t) 12 in
      let hr := if (hr =? 0)%Z then 12%Z else hr in
      appendInt hr 2
  | stdZeroMinute => appendInt (min t) 2
  | stdZeroSecond => appendInt (sec t) 2
  | literal c => String c EmptyString
  end.

(** [t.Format(layout)] *)
Definition Format (t : Time) (layout : string) : string :=
  String.concat "" (map (formatChunk t) (chunks layout)).

(** Days from 1 January of year 0 to the given date. *)
Definition daysBefore (m : Z) : Z :=
  nth (Z.to_nat (m - 1)) [0; 31; 59; 90; 120; 151; 181; 212; 243; 273; 304; 334]%Z 0%Z.

Definition daysSinceYear0 (y m d : Z) : Z :=
  (365 * y + (y + 3) / 4 - (y + 99) / 100 + (y + 399) / 400
   + daysBefore m + (if isLeap y && (3 <=? m) then 1 else 0) + (d - 1))%Z.

(** Seconds of the instant since 1 January of year 0, 00:00:00 UTC. *)
Definition absSec (t : Time) : Z :=
  (daysSinceYear0 (year t) (month t) (day t) * 86400
   + hour t * 3600 + min t * 60 + sec t - zoneOffset t)%Z.

(** [t.Before(u)] *)
Definition Before (t u : Time) : bool :=
  ((absSec t <? absSec u) || ((absSec t =? absSec u) && (nsec t <? nsec u)))%Z.

End time.

(** ** Package [runtime/debug]: the build metadata *)

Module debug.

Record Module_ : Type := mkModule {
  Path : string;
  Version : string;
  Sum : string
}.

Record BuildSetting : Type := mkBuildSetting {
  Key : string;
  Value : string
}.

Record BuildInfo : Type := mkBuildInfo {
  GoVersion : string;
  Main : Module_;
  Settings : list BuildSetting
}.

(** The zero value [debug.BuildInfo{}]. *)
Definition zero : BuildInfo :=
  mkBuildInfo EmptyString (mkModule EmptyString EmptyString EmptyString) [].

End debug.

(** ** Package [fmt] *)

Module fmt.

(** [Sprintf(" %s", a)] *)
Definition Sprintf_sp_s (a : string) : string := " " +:+ a.

(** [Sprintf("v0.0.0-%s-%s", a, b)] *)
Definition Sprintf_pseudo (a b : string) : string :=
  "v0.0.0-" +:+ a +:+ "-" +:+ b.

(** [Sprint(b)] for a boolean. *)
Definition Sprint_bool (b : bool) : string := strconv.FormatBool b.

End fmt.

(** ** The [VersionInfo] interface *)

Inductive Field : Type :=
| FVersion | FRevision | FTime | FModified | FGoVersion.

#[global] Instance Field_eq_dec : EqDecision Field.
Proof. solve_decision. Defined.

(** The five methods of the interface.  A method of an arbitrary
    implementation may panic, hence [result]. *)
Class VersionInfo (T : Type) : Type := {
  Version : T -> result string;
  Revision : T -> result string;
  Time : T -> result string;
  Modified : T -> result bool;
  GoVersion : T -> result string
}.

(** ** [BuildInfo] *)

Record BuildInfo : Type := mkBuildInfo {
  buildInfo : debug.BuildInfo;
  version : string
}.

(** [NewBuildInfo], given what [debug.ReadBuildInfo] returns
    ([None] when it reports [!ok]). *)
Definition NewBuildInfo (read : option debug.BuildInfo) (version : string) : BuildInfo :=
  let info := match read with Some info => info | None => debug.zero end in
  mkBuildInfo info version.

(** The loop of [Revision]: the value of the first setting with key
    [vcs.revision]. *)
Fixpoint Revision_loop (settings : list debug.BuildSetting) : string :=
  match settings with
  | [] => EmptyString
  | setting :: settings' =>
      if String.eqb (debug.Key setting) "vcs.revision"
      then debug.Value setting
      else Revision_loop settings'
  end.

Definition BuildInfo_Revision (bi : BuildInfo) : string :=
  Revision_loop (debug.Settings (buildInfo bi)).

Fixpoint Time_loop (settings : list debug.BuildSetting) : string :=
  match settings with
  | [] => EmptyString
  | setting :: settings' =>
      if String.eqb (debug.Key setting) "vcs.time"
      then debug.Value setting
      else Time_loop settings'
  end.

Definition BuildInfo_Time (bi : BuildInfo) : string :=
  Time_loop (debug.Settings (buildInfo bi)).

Fixpoint Modified_loop (settings : list debug.BuildSetting) : bool :=
  match settings with
  | [] => false
  | setting :: settings' =>
      if String.eqb (debug.Key setting) "vcs.modified"
      then match strconv.ParseBool (debug.Value setting) with
           | None => false
           | Some v => v
           end
      else Modified_loop settings'
  end.

Definition BuildInfo_Modified (bi : BuildInfo) : bool :=
  Modified_loop (debug.Settings (buildInfo bi)).

Definition BuildInfo_GoVersion (bi : BuildInfo) : string :=
  debug.GoVersion (buildInfo bi).

Definition BuildInfo_pseudoVersion (bi : BuildInfo) : result string :=
  match time.ParseRFC3339 (BuildInfo_Time bi) with
  | None => Ok EmptyString
  | Some t =>
      let timestamp := time.Format t "060102030405" in
      match slice_to (BuildInfo_Revision bi) 12 with
      | Panic msg => Panic msg
      | Ok revision => Ok (fmt.Sprintf_pseudo timestamp revision)
      end
  end.

Definition BuildInfo_Version (bi : BuildInfo) : result string :=
  if negb (String.eqb (version bi) EmptyString) then Ok (version bi)
  else
    match BuildInfo_pseudoVersion bi with
    | Panic msg => Panic msg
    | Ok v =>
        if negb (String.eqb v EmptyString) then Ok v
        else Ok (debug.Version (debug.Main (buildInfo bi)))
    end.

#[global] Instance BuildInfo_VersionInfo : VersionInfo BuildInfo := {
  Version := BuildInfo_Version;
  Revision bi := Ok (BuildInfo_Revision bi);
  Time bi := Ok (BuildInfo_Time bi);
  Modified bi := Ok (BuildInfo_Modified bi);
  GoVersion bi := Ok (BuildInfo_GoVersion bi)
}.

(** [DefaultVersionInfo] *)
Definition DefaultVersionInfo (read : option debug.BuildInfo) : BuildInfo :=
  let info := match read with Some info => info | None => debug.zero end in
  mkBuildInfo info EmptyString.

(** ** Errors *)

(** An [error] value: a plain one, or the one [fmt.Errorf] builds for the
    verb [%w], which keeps the wrapped error. *)
Inductive error : Type :=
| errorString (s : string)
| wrapError (msg : string) (err : error).

(** [err.Error()] *)
Definition Error (e : error) : string :=
  match e with
  | errorString s => s
  | wrapError msg _ => msg
  end.

(** [errors.Unwrap(err)] *)
Definition Unwrap (e : error) : option error :=
  match e with
  | errorString _ => None
  | wrapError _ err => Some err
  end.

(** [fmt.Errorf(prefix + "%w", err)] *)
Definition Errorf_w (prefix : string) (err : error) : error :=
  wrapError (prefix +:+ Error err) err.

(** ** Package [flag], for boolean flags *)

Module flag.

(** A [Flag] whose [Value] is a [*bool]: an index into the store of
    boolean variables.  Two flags registered on one variable share it. *)
Record Flag : Type := mkFlag {
  Name : string;
  Usage : string;
  Value : nat;
  DefValue : string
}.

Record FlagSet : Type := mkFlagSet {
  formal : gmap string Flag;
  actual : gmap string Flag;
  args : list string;
  vars : list bool
}.

(** [NewFlagSet(name, errorHandling)] *)
Definition NewFlagSet : FlagSet := mkFlagSet ∅ ∅ [] [].

(** [*p] *)
Definition deref (f : FlagSet) (p : nat) : bool := default false (vars f !! p).

(** [f.Value.String()] of a boolean flag. *)
Definition Value_String (f : FlagSet) (fl : Flag) : string :=
  strconv.FormatBool (deref f (Value fl)).

(** [f.Value.Set(s)] of a boolean flag. *)
Definition Value_Set (f : FlagSet) (fl : Flag) (s : string) : FlagSet + error :=
  match strconv.ParseBool s with
  | None => inr (errorString "parse error")
  | Some v => inl (mkFlagSet (formal f) (actual f) (args f) (<[Value fl := v]> (vars f)))
  end.

Definition hasByte (c : ascii) (s : string) : bool :=
  existsb (Ascii.eqb c) (list_ascii_of_string s).

Definition firstByteIs (c : ascii) (s : string) : bool :=
  match s with String c0 _ => Ascii.eqb c0 c | EmptyString => false end.

(** [f.BoolVar(p, name, value, usage)]: sets [*p = value] and defines the
    flag; the name must not begin with [-], contain [=] or be defined. *)
Definition BoolVar (f : FlagSet) (p : nat) (name : string) (value : bool)
    (usage : string) : result FlagSet :=
  let vars' := <[p := value]> (vars f) in
  if firstByteIs "-" name then Panic "flag begins with -"
  else if hasByte "=" name then Panic "flag contains ="
  else
    let fl := mkFlag name usage p (strconv.FormatBool value) in
    match formal f !! name with
    | Some _ => Panic "flag redefined"
    | None => Ok (mkFlagSet (<[name := fl]> (formal f)) (actual f) (args f) vars')
    end.

(** [f.Bool(name, value, usage)]: a new variable, and [BoolVar] on it. *)
Definition Bool (f : FlagSet) (name : string) (value : bool) (usage : string)
    : result (nat * FlagSet) :=
  let p := length (vars f) in
  let f' := mkFlagSet (formal f) (actual f) (args f) (vars f ++ [false]) in
  match BoolVar f' p name value usage with
  | Panic msg => Panic msg
  | Ok f'' => Ok (p, f'')
  end.

(** [f.Lookup(name)] *)
Definition Lookup (f : FlagSet) (name : string) : option Flag := formal f !! name.

Definition flag_le (a b : Flag) : Prop := String.leb (Name a) (Name b) = true.

#[global] Instance flag_le_dec : RelDecision flag_le.
Proof. intros a b. unfold flag_le. apply _. Defined.

(** [sortFlags]: the flags of a map, in lexicographical order of name. *)
Definition sortFlags (flags : gmap string Flag) : list Flag :=
  merge_sort flag_le (snd <$> map_to_list flags).

(** [f.Visit(fn)]: [fn] on each flag that has been set, in
    lexicographical order; [fn] updates a state of type [S]. *)
Definition Visit {S : Type} (f : FlagSet) (fn : Flag -> S -> S) (init : S) : S :=
  fold_left (fun s fl => fn fl s) (sortFlags (actual f)) init.

(** The name and the value of [name=value]; the [=] is not the first byte. *)
Fixpoint cutEq (s : string) : option (string * string) :=
  match s with
  | EmptyString => None
  | String c rest =>
      if Ascii.eqb c "=" then Some (EmptyString, rest)
      else match cutEq rest with
           | Some (a, b) => Some (String c a, b)
           | None => None
           end
  end.

Definition ErrHelp : error := errorString "flag: help requested".

(** [f.parseOne()] with [s] the first of the remaining arguments and [rest]
    the others: whether a flag was seen, and the flag set. *)
Definition parseOne (f : FlagSet) (s : string) (rest : list string)
    : (bool * FlagSet) + error :=
  let stop (remaining : list string) :=
    inl (false, mkFlagSet (formal f) (actual f) remaining (vars f)) in
  match s with
  | String "-" (String c1 s2) =>
      let isDouble := Ascii.eqb c1 "-" in
      if isDouble && String.eqb s2 EmptyString then stop rest
      else
        let name := if isDouble then s2 else String c1 s2 in
        match name with
        | EmptyString => inr (errorString ("bad flag syntax: " +:+ s))
        | String n0 ntail =>
            if Ascii.eqb n0 "-" || Ascii.eqb n0 "="
            then inr (errorString ("bad flag syntax: " +:+ s))
            else
              let f := mkFlagSet (formal f) (actual f) rest (vars f) in
              let '(name, value) :=
                match cutEq ntail with
                | Some (a, b) => (String n0 a, Some b)
                | None => (name, None)
                end in
              match formal f !! name with
              | None =>
                  if String.eqb name "help" || String.eqb name "h"
                  then inr ErrHelp
                  else inr (errorString ("flag provided but not defined: -" +:+ name))
              | Some fl =>
                  match Value_Set f fl (default "true" value) with
                  | inr _ => inr (errorString ("invalid boolean value for -" +:+ name))
                  | inl f =>
                      inl (true, mkFlagSet (formal f) (<[name := fl]> (actual f))
                                           (args f) (vars f))
                  end
              end
        end
  | _ => stop (s :: rest)
  end.

Fixpoint Parse_loop (f : FlagSet) (arguments : list string) : FlagSet + error :=
  match arguments with
  | [] => inl (mkFlagSet (formal f) (actual f) [] (vars f))
  | s :: rest =>
      match parseOne f s rest with
      | inr err => inr err
      | inl (true, f') => Parse_loop f' rest
      | inl (false, f') => inl f'
      end
  end.

(** [f.Parse(arguments)]; [inr] is the error the flag set reports before
    its error handling applies. *)
Definition Parse (f : FlagSet) (arguments : list string) : FlagSet + error :=
  Parse_loop f arguments.

End flag.

(** ** [strings.TrimSpace] *)

(** The six ASCII bytes with the White_Space property. *)
Definition asciiSpace (c : ascii) : bool :=
  let b := byte c in
  ((b =? 9) || (b =? 10) || (b =? 11) || (b =? 12) || (b =? 13) || (b =? 32))%Z.

(** The two-byte UTF-8 encodings of white space: U+0085 and U+00A0. *)
Definition space2 (c d : ascii) : bool :=
  ((byte c =? 194) && ((byte d =? 133) || (byte d =? 160)))%Z.

(** The three-byte UTF-8 encodings of white space: U+1680, U+2000 to
    U+200A, U+2028, U+2029, U+202F, U+205F and U+3000. *)
Definition space3 (c d e : ascii) : bool :=
  let '(c, d, e) := (byte c, byte d, byte e) in
  (   ((c =? 225) && (d =? 154) && (e =? 128))
   || ((c =? 226) && (d =? 128)
       && (((128 <=? e) && (e <=? 138)) || (e =? 168) || (e =? 169) || (e =? 175)))
   || ((c =? 226) && (d =? 129) && (e =? 159))
   || ((c =? 227) && (d =? 128) && (e =? 128)))%Z.

(** Drops the white-space runes at the head of [l].  With [back], [l] is a
    string read from its last byte, and the runes are decoded as
    [utf8.DecodeLastRuneInString] does.  A byte that starts no valid
    encoding decodes to [utf8.RuneError], which is no white space. *)
Fixpoint trimRunes (back : bool) (l : list ascii) : list ascii :=
  match l with
  | [] => l
  | c :: l1 =>
      if asciiSpace c then trimRunes back l1
      else
        match l1 with
        | [] => l
        | d :: l2 =>
            if (if back then space2 d c else space2 c d) then trimRunes back l2
            else
              match l2 with
              | [] => l
              | e :: l3 =>
                  if (if back then space3 e d c else space3 c d e)
                  then trimRunes back l3
                  else l
              end
        end
  end.

(** [strings.TrimSpace(s)]: [s] without leading and trailing white space,
    as Unicode defines it. *)
Definition TrimSpace (s : string) : string :=
  let left := trimRunes false (list_ascii_of_string s) in
  string_of_list_ascii (rev (trimRunes true (rev left))).

(** ** [io.Writer] *)

(** [Write(p)] on a sink in state [w]: the next state, the number of bytes
    written and the error. *)
Class Writer (W : Type) : Type := {
  Write : W -> string -> W * (Z * option error)
}.

(** ** The version command *)

#[global] Instance result_ret : MRet result := @Ok.
#[global] Instance result_bind : MBind result := fun A B f r =>
  match r with
  | Ok a => f a
  | Panic msg => Panic msg
  end.

(** What running the command changes and shows: the methods of the
    [VersionInfo] that were called, in order, and the output sink. *)
Record World (W : Type) : Type := mkWorld {
  calls : list Field;
  sink : W
}.
Arguments mkWorld {W}.
Arguments calls {W}.
Arguments sink {W}.

(** A computation in a world; a panic leaves the world as it was then. *)
Definition M (W A : Type) : Type := World W -> result A * World W.

#[global] Instance M_ret {W} : MRet (M W) := fun A a w => (Ok a, w).
#[global] Instance M_bind {W} : MBind (M W) := fun A B f m w =>
  match m w with
  | (Ok a, w') => f a w'
  | (Panic msg, w') => (Panic msg, w')
  end.

(** A call of the method [f] of the [VersionInfo], giving [r]. *)
Definition query {W A} (f : Field) (r : result A) : M W A :=
  fun w => (r, mkWorld (calls w ++ [f]) (sink w)).

(** [fmt.Fprintln(out, s)]: one [Write] of [s] and a newline. *)
Definition Fprintln {W} `{Writer W} (s : string) : M W (Z * option error) :=
  fun w =>
    let '(sink', r) := Write (sink w) (s +:+ String "010" EmptyString) in
    (Ok r, mkWorld (calls w) sink').

Module versionCmd.

Record versionCmdConfig (T : Type) : Type := mkConfig {
  version : T;
  flags : flag.FlagSet
}.
Arguments mkConfig {T}.
Arguments version {T}.
Arguments flags {T}.

Definition RegisterFlags (fs : flag.FlagSet) : result flag.FlagSet :=
  '(a, fs) ← flag.Bool fs "all" false "print all information";
  fs ← flag.BoolVar fs a "a" false "shorthand option for `--all`";
  '(n, fs) ← flag.Bool fs "number" false "print the version number";
  fs ← flag.BoolVar fs n "n" false "shorthand option for `--number`";
  '(r, fs) ← flag.Bool fs "revision" false "print the commit revision identifier";
  fs ← flag.BoolVar fs r "r" false "shorthand option for `--revision`";
  '(t, fs) ← flag.Bool fs "time" false "print the commit revision modification time";
  fs ← flag.BoolVar fs t "t" false "shorthand option for `--time`";
  '(m, fs) ← flag.Bool fs "modified" false "print the commit revision identifier";
  fs ← flag.BoolVar fs m "m" false "shorthand option for `--modified`";
  '(g, fs) ← flag.Bool fs "go-version" false "print the Go toolchain version";
  fs ← flag.BoolVar fs g "g" false "shorthand option for `--go-version`";
  '(_, fs) ← flag.Bool fs "json" false "print information in JSON";
  mret fs.

Definition testFlag (fs : flag.FlagSet) (name : string) : bool :=
  match flag.Lookup fs name with
  | None => false
  | Some f =>
      match strconv.ParseBool (flag.Value_String fs f) with
      | None => false
      | Some v => v
      end
  end.

Section Render.

Context {T W : Type} `{VersionInfo T} `{Writer W}.

(** [json.Marshal] of a [map[string]string]. *)
Variable json_Marshal : gmap string string -> string + error.

Definition writeText (c : versionCmdConfig T) (any all : bool) : M W (option error) :=
  let builder := EmptyString in
  builder ← (if negb any || testFlag (flags c) "number" || all
             then v ← query FVersion (Version (version c));
                  mret (builder +:+ v)
             else mret builder);
  builder ← (if testFlag (flags c) "revision" || all
             then v ← query FRevision (Revision (version c));
                  mret (builder +:+ fmt.Sprintf_sp_s v)
             else mret builder);
  builder ← (if testFlag (flags c) "time" || all
             then v ← query FTime (Time (version c));
                  mret (builder +:+ fmt.Sprintf_sp_s v)
             else mret builder);
  builder ← (if testFlag (flags c) "go-version" || all
             then v ← query FGoVersion (GoVersion (version c));
                  mret (builder +:+ fmt.Sprintf_sp_s v)
             else mret builder);
  builder ← (if testFlag (flags c) "modified" || all
             then m ← query FModified (Modified (version c));
                  mret (if m : bool then builder +:+ " (modified)" else builder)
             else mret builder);
  let s := builder in
  '(_, err) ← Fprintln (TrimSpace s);
  mret (match err with
        | Some err => Some (Errorf_w "error writing version information: " err)
        | None => None
        end).

Definition writeJson (c : versionCmdConfig T) (any all : bool) : M W (option error) :=
  let data : gmap string string := ∅ in
  data ← (if negb any || testFlag (flags c) "number" || all
          then v ← query FVersion (Version (version c));
               mret (<["Version" := v]> data)
          else mret data);
  data ← (if testFlag (flags c) "revision" || all
          then v ← query FRevision (Revision (version c));
               mret (<["Revision" := v]> data)
          else mret data);
  data ← (if testFlag (flags c) "time" || all
          then v ← query FTime (Time (version c));
               mret (<["Time" := v]> data)
          else mret data);
  data ← (if testFlag (flags c) "go-version" || all
          then v ← query FGoVersion (GoVersion (version c));
               mret (<["GoVersion" := v]> data)
          else mret data);
  data ← (if testFlag (flags c) "modified" || all
          then m ← query FModified (Modified (version c));
               mret (<["Modified" := fmt.Sprint_bool m]> data)
          else mret data);
  match json_Marshal data with
  | inr err => mret (Some (Errorf_w "error encoding version information: " err))
  | inl m =>
      '(_, err) ← Fprintln m;
      mret (match err with
            | Some err => Some (Errorf_w "error writing version information: " err)
            | None => None
            end)
  end.

Definition Exec (c : versionCmdConfig T) : M W (option error) :=
  let any := flag.Visit (flags c)
               (fun f any => if negb (String.eqb (flag.Name f) "json") then true else any)
               false in
  let all := testFlag (flags c) "all" in
  if testFlag (flags c) "json" then writeJson c any all
  else writeText c any all.

End Render.

End versionCmd.

(** ** Constructors of the version command *)

(** [NewVersionCommand(info, out)]: the configuration that the [Exec] of the
    returned command is bound to, and the sink it writes to, [stdout] when
    [out] is nil.  The [Command] value itself is of a type declared outside
    [version.go]. *)
Definition NewVersionCommand {T W : Type} (info : T) (out : option W) (stdout : W)
    : result (versionCmd.versionCmdConfig T * W) :=
  let out := match out with None => stdout | Some out => out end in
  flags ← versionCmd.RegisterFlags flag.NewFlagSet;
  mret (versionCmd.mkConfig info flags, out).

(** [DefaultVersionCommand(out)], given what [debug.ReadBuildInfo] returns. *)
Definition DefaultVersionCommand {W : Type} (read : option debug.BuildInfo)
    (out : option W) (stdout : W) : result (versionCmd.versionCmdConfig BuildInfo * W) :=
  let info := DefaultVersionInfo read in
  NewVersionCommand info out stdout.

(** ** The example command [hello] ([examples/hello/hello.go]) *)

Module hello.

(** [fmt.Printf("Hello, %s.\n", name)]: one [Write] to the standard output. *)
Definition Printf_hello {W} `{Writer W} (name : string) : M W (Z * option error) :=
  fun w =>
    let '(sink', r) :=
      Write (sink w) ("Hello, " +:+ name +:+ "." +:+ String "010" EmptyString) in
    (Ok r, mkWorld (calls w) sink').

(** [args[0]] *)
Definition first (args : list string) : result string :=
  match args with
  | a :: _ => Ok a
  | [] => Panic "index out of range"
  end.

(** The [Exec] of the root command. *)
Definition Exec {W} `{Writer W} (args : list string) : M W (option error) :=
  if (Z.of_nat (length args) <? 1)%Z then mret (Some (errorString "not enough arguments"))
  else if (1 <? Z.of_nat (length args))%Z then mret (Some (errorString "too many arguments"))
  else
    fun w =>
      match first args with
      | Panic msg => (Panic msg, w)
      | Ok name =>
          ('(_, err) ← Printf_hello name; mret err) w
      end.

End hello.

(** ** [*BuildInfo] as a caller may hold it *)

(** [BuildInfo] above is the provider that [NewBuildInfo] and
    [DefaultVersionInfo] build: the pointer to the build information is
    set.  The struct is exported, so a caller may also hold its zero value,
    or a nil [*BuildInfo]; the methods are given here on such a receiver. *)
Module ptr.

(** The dereference of a pointer that may be nil ([None]). *)
Definition load {A : Type} (p : option A) : result A :=
  match p with
  | Some a => Ok a
  | None => Panic "invalid memory address or nil pointer dereference"
  end.

Record BuildInfo : Type := mkBuildInfo {
  buildInfo : option debug.BuildInfo;
  version : string
}.

Definition NewBuildInfo (read : option debug.BuildInfo) (version : string)
    : option BuildInfo :=
  let info := match read with Some info => info | None => debug.zero end in
  Some (mkBuildInfo (Some info) version).

Definition Revision (bi : option BuildInfo) : result string :=
  s ← load bi;
  info ← load (buildInfo s);
  mret (Revision_loop (debug.Settings info)).

Definition Time (bi : option BuildInfo) : result string :=
  s ← load bi;
  info ← load (buildInfo s);
  mret (Time_loop (debug.Settings info)).

Definition Modified (bi : option BuildInfo) : result bool :=
  s ← load bi;
  info ← load (buildInfo s);
  mret (Modified_loop (debug.Settings info)).

Definition GoVersion (bi : option BuildInfo) : result string :=
  s ← load bi;
  info ← load (buildInfo s);
  mret (debug.GoVersion info).

Definition pseudoVersion (bi : option BuildInfo) : result string :=
  tm ← Time bi;
  match time.ParseRFC3339 tm with
  | None => mret EmptyString
  | Some t =>
      let timestamp := time.Format t "060102030405" in
      rev ← Revision bi;
      revision ← slice_to rev 12;
      mret (fmt.Sprintf_pseudo timestamp revision)
  end.

Definition Version (bi : option BuildInfo) : result string :=
  s ← load bi;
  if negb (String.eqb (version s) EmptyString) then mret (version s)
  else
    v ← pseudoVersion bi;
    if negb (String.eqb v EmptyString) then mret v
    else
      info ← load (buildInfo s);
      mret (debug.Version (debug.Main info)).

End ptr.

(** ** Package [flag]: flags set before they are defined *)

(** Since Go 1.21 a [FlagSet] remembers, in its field [undef], the names
    that [Set] was called with while they were not defined, and defining
    such a name panics.  [Parse] does not touch [undef]; the flag sets
    above are those on which [Set] was not called in that way. *)
Module flagUndef.

Record FlagSet : Type := mkFlagSet {
  flags : flag.FlagSet;
  undef : gmap string string
}.

(** [NewFlagSet(name, errorHandling)] *)
Definition NewFlagSet : FlagSet := mkFlagSet flag.NewFlagSet ∅.

(** [f.Set(name, value)], called from the position [caller]. *)
Definition Set_ (f : FlagSet) (name value : string) (caller : string)
    : FlagSet * option error :=
  match flag.formal (flags f) !! name with
  | None =>
      (mkFlagSet (flags f) (<[name := caller]> (undef f)),
       Some (errorString ("no such flag -" +:+ name)))
  | Some fl =>
      let fs := flags f in
      match strconv.ParseBool value with
      | None =>
          (mkFlagSet
             (flag.mkFlagSet (flag.formal fs) (flag.actual fs) (flag.args fs)
                (<[flag.Value fl := false]> (flag.vars fs)))
             (undef f),
           Some (errorString "parse error"))
      | Some v =>
          (mkFlagSet
             (flag.mkFlagSet (flag.formal fs) (<[name := fl]> (flag.actual fs))
                (flag.args fs) (<[flag.Value fl := v]> (flag.vars fs)))
             (undef f),
           None)
      end
  end.

(** [pos := f.undef[name]; pos != ""], the empty string being what the
    lookup of a missing name gives. *)
Definition setBefore (f : FlagSet) (name : string) : bool :=
  negb (String.eqb (default EmptyString (undef f !! name)) EmptyString).

(** [f.BoolVar(p, name, value, usage)]: after the checks of the name and
    of a redefinition, defining a flag that was set before panics. *)
Definition BoolVar (f : FlagSet) (p : nat) (name : string) (value : bool)
    (usage : string) : result FlagSet :=
  match flag.BoolVar (flags f) p name value usage with
  | Panic msg => Panic msg
  | Ok flags' =>
      if setBefore f name then Panic "flag set before being defined"
      else Ok (mkFlagSet flags' (undef f))
  end.

(** [f.Bool(name, value, usage)] *)
Definition Bool (f : FlagSet) (name : string) (value : bool) (usage : string)
    : result (nat * FlagSet) :=
  let fs := flags f in
  let p := length (flag.vars fs) in
  let f' := mkFlagSet
              (flag.mkFlagSet (flag.formal fs) (flag.actual fs) (flag.args fs)
                 (flag.vars fs ++ [false]))
              (undef f) in
  match BoolVar f' p name value usage with
  | Panic msg => Panic msg
  | Ok f'' => Ok (p, f'')
  end.

(** [versionCmdConfig.RegisterFlags] on such a flag set. *)
Definition RegisterFlags (fs : FlagSet) : result FlagSet :=
  '(a, fs) ← Bool fs "all" false "print all information";
  fs ← BoolVar fs a "a" false "shorthand option for `--all`";
  '(n, fs) ← Bool fs "number" false "print the version number";
  fs ← BoolVar fs n "n" false "shorthand option for `--number`";
  '(r, fs) ← Bool fs "revision" false "print the commit revision identifier";
  fs ← BoolVar fs r "r" false "shorthand option for `--revision`";
  '(t, fs) ← Bool fs "time" false "print the commit revision modification time";
  fs ← BoolVar fs t "t" false "shorthand option for `--time`";
  '(m, fs) ← Bool fs "modified" false "print the commit revision identifier";
  fs ← BoolVar fs m "m" false "shorthand option for `--modified`";
  '(g, fs) ← Bool fs "go-version" false "print the Go toolchain version";
  fs ← BoolVar fs g "g" false "shorthand option for `--go-version`";
  '(_, fs) ← Bool fs "json" false "print information in JSON";
  mret fs.

End flagUndef.

(** * Notions used in the statements *)

(** ** Strings and settings *)

(** All bytes of [s] are decimal digits. *)
Definition allDigits (s : string) : bool :=
  forallb isDigit (list_ascii_of_string s).

Definition hasKey (k : string) (settings : list debug.BuildSetting) : Prop :=
  exists s, In s settings /\ debug.Key s = k.

(** ** Flag sets *)

(** The visitor of [Exec]: whether a flag other than [json] has been set. *)
Definition anyFlag (fs : flag.FlagSet) : bool :=
  flag.Visit fs
    (fun f any => if negb (String.eqb (flag.Name f) "json") then true else any)
    false.

(** What the flag set records as set by the caller, apart from [json]. *)
Definition fieldFlagSupplied (fs : flag.FlagSet) : Prop :=
  exists (name : string) (f : flag.Flag),
    flag.actual fs !! name = Some f /\ flag.Name f <> "json".

(** The flag set of a new version command. *)
Definition newFlags : flag.FlagSet :=
  match versionCmd.RegisterFlags flag.NewFlagSet with
  | Ok fs => fs
  | Panic _ => flag.NewFlagSet
  end.

(** The flag set after parsing the arguments [arguments], when they parse. *)
Definition parsed (arguments : list string) : option flag.FlagSet :=
  match flag.Parse newFlags arguments with
  | inl fs => Some fs
  | inr _ => None
  end.

(** The flag set after parsing [arguments]; the registered one when they do
    not parse. *)
Definition flagsAfter (arguments : list string) : flag.FlagSet :=
  default newFlags (parsed arguments).

(** The names of the flags that select fields. *)
Definition fieldFlagNames : list string :=
  ["all"; "a"; "number"; "n"; "revision"; "r"; "time"; "t"; "modified"; "m";
   "go-version"; "g"].

(** ** Selection of fields *)

(** The selection rule as the specification words it. *)
Definition selects (fs : flag.FlagSet) (any all : bool) (f : Field) : bool :=
  match f with
  | FVersion => negb any || versionCmd.testFlag fs "number" || all
  | FRevision => versionCmd.testFlag fs "revision" || all
  | FTime => versionCmd.testFlag fs "time" || all
  | FGoVersion => versionCmd.testFlag fs "go-version" || all
  | FModified => versionCmd.testFlag fs "modified" || all
  end.

Definition renderOrder : list Field :=
  [FVersion; FRevision; FTime; FGoVersion; FModified].

Definition selection (fs : flag.FlagSet) (any all : bool) : list Field :=
  List.filter (selects fs any all) renderOrder.

(** The key of a field in the JSON object. *)
Definition fieldName (f : Field) : string :=
  match f with
  | FVersion => "Version"
  | FRevision => "Revision"
  | FTime => "Time"
  | FGoVersion => "GoVersion"
  | FModified => "Modified"
  end.

(** The world before the command runs. *)
Definition fresh {W} (out : W) : World W := mkWorld [] out.

(** Whether the method behind a field returns. *)
Definition answers {T} `{VersionInfo T} (v : T) (f : Field) : Prop :=
  match f with
  | FVersion => exists s, Version v = Ok s
  | FRevision => exists s, Revision v = Ok s
  | FTime => exists s, Time v = Ok s
  | FGoVersion => exists s, GoVersion v = Ok s
  | FModified => exists b, Modified v = Ok b
  end.

(** The answer of a method as the renderers print it. *)
Definition valueOf (r : result string) : string :=
  match r with Ok s => s | Panic _ => EmptyString end.

Definition isTrue (r : result bool) : bool :=
  match r with Ok b => b | Panic _ => false end.

(** Every selected method returns. *)
Definition accessible {T} `{VersionInfo T} (v : T) (fs : flag.FlagSet)
    (any all : bool) : Prop :=
  forall f, selects fs any all f = true -> answers v f.

Definition newline : string := String "010" EmptyString.

Definition writeError (err : option error) : option error :=
  match err with
  | Some err => Some (Errorf_w "error writing version information: " err)
  | None => None
  end.

(** One [Write] of [line] and a newline, after calls of the methods [cs]. *)
Definition printed {W} `{Writer W} (line : string) (cs : list Field) (w : World W)
    : result (option error) * World W :=
  let '(sink', (_, err)) := Write (sink w) (line +:+ newline) in
  (Ok (writeError err), mkWorld (calls w ++ cs) sink').

(** The encoding of [data] and one [Write] of it, after calls of the
    methods [cs]; nothing is written when the encoding fails. *)
Definition encoded {W} `{Writer W}
    (json_Marshal : gmap string string -> string + error)
    (data : gmap string string) (cs : list Field) (w : World W)
    : result (option error) * World W :=
  match json_Marshal data with
  | inr err =>
      (Ok (Some (Errorf_w "error encoding version information: " err)),
       mkWorld (calls w ++ cs) (sink w))
  | inl m => printed m cs w
  end.

(** What [Exec] reads of a flag set. *)
Definition flagView (fs : flag.FlagSet) : list bool :=
  [anyFlag fs; versionCmd.testFlag fs "json"; versionCmd.testFlag fs "all";
   versionCmd.testFlag fs "number"; versionCmd.testFlag fs "revision";
   versionCmd.testFlag fs "time"; versionCmd.testFlag fs "go-version";
   versionCmd.testFlag fs "modified"].

(** The mode and, for each field in the order of rendering, whether the
    flag set selects it. *)
Definition selected (fs : flag.FlagSet) : list bool :=
  versionCmd.testFlag fs "json"
  :: map (selects fs (anyFlag fs) (versionCmd.testFlag fs "all")) renderOrder.

(** ** Rendering, in the words of the specification *)

(** Text rendering as the specification words it: the included fields in
    the order Version, Revision, Time, GoVersion, marker; each after the
    first with a space before it; white space trimmed. *)
Definition spec_fields {T} `{VersionInfo T} (v : T) (fs : flag.FlagSet)
    (any all : bool) : list string :=
  ((if selects fs any all FVersion then [valueOf (Version v)] else [])
   ++ (if selects fs any all FRevision then [valueOf (Revision v)] else [])
   ++ (if selects fs any all FTime then [valueOf (Time v)] else [])
   ++ (if selects fs any all FGoVersion then [valueOf (GoVersion v)] else [])
   ++ (if selects fs any all FModified && isTrue (Modified v)
       then ["(modified)"] else []))%list.

Fixpoint spec_rest (fields : list string) : string :=
  match fields with
  | [] => EmptyString
  | f :: fields' => " " +:+ f +:+ spec_rest fields'
  end.

Definition spec_join (fields : list string) : string :=
  match fields with
  | [] => EmptyString
  | f :: fields' => f +:+ spec_rest fields'
  end.

Definition spec_line {T} `{VersionInfo T} (v : T) (fs : flag.FlagSet)
    (any all : bool) : string :=
  TrimSpace (spec_join (spec_fields v fs any all)).

(** The JSON object as the specification words it: the name of each
    included field with its value as a string. *)
Definition represent {T} `{VersionInfo T} (v : T) (f : Field) : string :=
  match f with
  | FVersion => valueOf (Version v)
  | FRevision => valueOf (Revision v)
  | FTime => valueOf (Time v)
  | FGoVersion => valueOf (GoVersion v)
  | FModified => strconv.FormatBool (isTrue (Modified v))
  end.

Definition spec_data {T} `{VersionInfo T} (v : T) (fs : flag.FlagSet)
    (any all : bool) : gmap string string :=
  fold_left (fun data f => <[fieldName f := represent v f]> data)
    (selection fs any all) ∅.

(** What a field contributes to the text line: its value, and for
    Modified the marker when the tree is modified and nothing otherwise. *)
Definition fieldText {T} `{VersionInfo T} (v : T) (f : Field) : list string :=
  match f with
  | FVersion => [valueOf (Version v)]
  | FRevision => [valueOf (Revision v)]
  | FTime => [valueOf (Time v)]
  | FGoVersion => [valueOf (GoVersion v)]
  | FModified => if isTrue (Modified v) then ["(modified)"] else []
  end.

(** The text line that renders the fields [fields]. *)
Definition lineOf {T} `{VersionInfo T} (v : T) (fields : list Field) : string :=
  TrimSpace (spec_join (flat_map (fieldText v) fields)).

(** The JSON object that renders the fields [fields]. *)
Definition objectOf {T} `{VersionInfo T} (v : T) (fields : list Field)
    : gmap string string :=
  fold_left (fun data f => <[fieldName f := represent v f]> data) fields ∅.

(** ** Build metadata used in examples *)

Definition setting (k v : string) : debug.BuildSetting := debug.mkBuildSetting k v.

Definition metadata (settings : list debug.BuildSetting) : debug.BuildInfo :=
  debug.mkBuildInfo "go1.21" (debug.mkModule "example.com/tool" "(devel)" EmptyString)
    settings.

(** The metadata of a binary built from a clean commit. *)
Definition stamped : BuildInfo :=
  mkBuildInfo
    (metadata [setting "vcs" "git";
               setting "vcs.revision" "abcdef123456789";
               setting "vcs.time" "2024-01-15T10:30:00Z";
               setting "vcs.modified" "true"])
    EmptyString.

(** Metadata with a commit time and no revision. *)
Definition timeOnly : BuildInfo :=
  mkBuildInfo (metadata [setting "vcs.time" "2024-01-15T10:30:00Z"]) EmptyString.

(** Metadata of a binary built outside version control. *)
Definition unstamped : BuildInfo :=
  mkBuildInfo (metadata [setting "-buildmode" "exe"]) EmptyString.

(** Build metadata of the commit [abcdef123456789] with the commit time
    [t]. *)
Definition committedAt (t : string) : BuildInfo :=
  mkBuildInfo (metadata [setting "vcs.revision" "abcdef123456789"; setting "vcs.time" t])
    EmptyString.

(** ** Implementations of the interfaces used in examples *)

(** A [VersionInfo] with fixed answers. *)
Record staticInfo : Type := mkStatic {
  sVersion : string;
  sRevision : string;
  sTime : string;
  sModified : bool;
  sGoVersion : string
}.

#[global] Instance staticInfo_VersionInfo : VersionInfo staticInfo := {
  Version i := Ok (sVersion i);
  Revision i := Ok (sRevision i);
  Time i := Ok (sTime i);
  Modified i := Ok (sModified i);
  GoVersion i := Ok (sGoVersion i)
}.

Definition release : staticInfo :=
  mkStatic "v1.2.3" "abcdef123456" "2024-01-15T10:30:00Z" true "go1.21".

(** A writer that keeps what is written, as [bytes.Buffer] does. *)
#[global] Instance buffer_Writer : Writer (list string) := {
  Write w p := ((w ++ [p])%list, (len p, None))
}.

(** A writer that rejects every write, and counts them. *)
Inductive closedPipe : Type := Closed (attempts : nat).

Definition ErrClosedPipe : error := errorString "io: read/write on closed pipe".

#[global] Instance closedPipe_Writer : Writer closedPipe := {
  Write w p := let 'Closed n := w in (Closed (S n), (0%Z, Some ErrClosedPipe))
}.

(** [s] between double quotes. *)
Definition quoted (s : string) : string :=
  let dq := String (ascii_of_nat 34) EmptyString in
  dq +:+ s +:+ dq.

Definition member_le (a b : string * string) : Prop := String.leb a.1 b.1 = true.

#[global] Instance member_le_dec : RelDecision member_le.
Proof. intros a b. unfold member_le. apply _. Defined.

(** [json.Marshal] on maps whose keys and values need no escaping: the
    members in the order of their keys, without white space. *)
Definition compactObject (data : gmap string string) : string + error :=
  let members := merge_sort member_le (map_to_list data) in
  let member kv := quoted kv.1 +:+ ":" +:+ quoted kv.2 in
  inl ("{" +:+ String.concat "," (member <$> members) +:+ "}").

(** An encoder that fails. *)
Definition brokenMarshal (data : gmap string string) : string + error :=
  inr (errorString "json: unsupported value").

(** What the command prints into a buffer, and the error it returns. *)
Definition output {T} `{VersionInfo T} (v : T) (arguments : list string)
    : result (option error) * list string :=
  let r := versionCmd.Exec compactObject (versionCmd.mkConfig v (flagsAfter arguments))
             (fresh []) in
  (r.1, sink r.2).

(** ** Registration and parsing of flags *)

(** The names that [RegisterFlags] defines. *)
Definition versionFlagNames : list string := "json" :: fieldFlagNames.

(** A name that [flag.Var] accepts. *)
Definition wellNamed (name : string) : bool :=
  negb (flag.firstByteIs "-" name) && negb (flag.hasByte "=" name).

(** The new flag set on which the undefined flag [name] was set, from the
    position [caller]. *)
Definition setEarly (name caller : string) : flagUndef.FlagSet :=
  (flagUndef.Set_ flagUndef.NewFlagSet name "true" caller).1.

(** The ways in which a registration panics. *)
Definition registrationPanic (msg : string) : Prop :=
  msg = "flag redefined" \/ msg = "flag set before being defined".

(** What one argument asks of a flag set whose defined flags are [formal]. *)
Inductive request : Type :=
| Stop (consumed : bool)
| Fail (e : error)
| SetTo (name : string) (fl : flag.Flag) (v : bool).

Definition decode (formal : gmap string flag.Flag) (s : string) : request :=
  match s with
  | String "-" (String c1 s2) =>
      let isDouble := Ascii.eqb c1 "-" in
      if isDouble && String.eqb s2 EmptyString then Stop true
      else
        let name := if isDouble then s2 else String c1 s2 in
        match name with
        | EmptyString => Fail (errorString ("bad flag syntax: " +:+ s))
        | String n0 ntail =>
            if Ascii.eqb n0 "-" || Ascii.eqb n0 "="
            then Fail (errorString ("bad flag syntax: " +:+ s))
            else
              let '(name, value) :=
                match flag.cutEq ntail with
                | Some (a, b) => (String n0 a, Some b)
                | None => (name, None)
                end in
              match formal !! name with
              | None =>
                  if String.eqb name "help" || String.eqb name "h"
                  then Fail flag.ErrHelp
                  else Fail (errorString ("flag provided but not defined: -" +:+ name))
              | Some fl =>
                  match strconv.ParseBool (default "true" value) with
                  | None => Fail (errorString ("invalid boolean value for -" +:+ name))
                  | Some v => SetTo name fl v
                  end
              end
        end
  | _ => Stop false
  end.

Definition serve (f : flag.FlagSet) (s : string) (rest : list string) (r : request)
    : (bool * flag.FlagSet) + error :=
  match r with
  | Stop consumed =>
      inl (false, flag.mkFlagSet (flag.formal f) (flag.actual f)
                    (if consumed then rest else s :: rest) (flag.vars f))
  | Fail e => inr e
  | SetTo name fl v =>
      inl (true, flag.mkFlagSet (flag.formal f) (<[name := fl]> (flag.actual f)) rest
                   (<[flag.Value fl := v]> (flag.vars f)))
  end.

(** The flag set comes from the registered one by parsing: its defined
    flags are the registered ones, and the flags that have been set are
    among them. *)
Definition tracked (f : flag.FlagSet) : Prop :=
  flag.formal f = flag.formal newFlags
  /\ forall name fl, flag.actual f !! name = Some fl -> flag.formal f !! name = Some fl.

(** Two flag sets that [Exec] cannot tell apart. *)
Definition agree (f1 f2 : flag.FlagSet) : Prop :=
  flag.vars f1 = flag.vars f2 /\ anyFlag f1 = anyFlag f2.

Definition alike (o1 o2 : flag.FlagSet + error) : Prop :=
  match o1, o2 with
  | inl g1, inl g2 => tracked g1 /\ tracked g2 /\ agree g1 g2
  | inr _, inr _ => True
  | _, _ => False
  end.

(** An argument that sets the flag [name]: one or two dashes, the name, and
    possibly [=] and a value. *)
Definition spell (double : bool) (name : string) (value : option string) : string :=
  (if double then "--" else "-") +:+ name
  +:+ match value with Some v => "=" +:+ v | None => EmptyString end.

(** Two names registered on one variable. *)
Definition aliases (n1 n2 : string) : Prop :=
  exists fl1 fl2,
    flag.formal newFlags !! n1 = Some fl1 /\ flag.formal newFlags !! n2 = Some fl2
    /\ flag.Value fl1 = flag.Value fl2.

Inductive sameArg : string -> string -> Prop :=
| sameArg_same (s : string) : sameArg s s
| sameArg_alias (d1 d2 : bool) (n1 n2 : string) (value : option string) :
    aliases n1 n2 -> sameArg (spell d1 n1 value) (spell d2 n2 value).

(** Requests that change two agreeing flag sets alike. *)
Definition sameRequest (formal : gmap string flag.Flag) (r1 r2 : request) : Prop :=
  match r1, r2 with
  | Stop _, Stop _ => True
  | Fail _, Fail _ => True
  | SetTo n1 fl1 v1, SetTo n2 fl2 v2 =>
      formal !! n1 = Some fl1 /\ formal !! n2 = Some fl2
      /\ flag.Value fl1 = flag.Value fl2 /\ v1 = v2
      /\ (n1 = "json" <-> n2 = "json")
  | _, _ => False
  end.

(** A test for [aliases]. *)
Definition aliasesb (n1 n2 : string) : bool :=
  match flag.formal newFlags !! n1, flag.formal newFlags !! n2 with
  | Some fl1, Some fl2 => Nat.eqb (flag.Value fl1) (flag.Value fl2)
  | _, _ => false
  end.

(** ** Panics *)

(** A method of [v] panicked with [msg]. *)
Definition panicked {T} `{VersionInfo T} (v : T) (msg : string) : Prop :=
  Version v = Panic msg \/ Revision v = Panic msg \/ Time v = Panic msg
  \/ GoVersion v = Panic msg \/ Modified v = Panic msg.

(** * Properties *)

(** ** Strings *)

(** [String.append] does not unfold under [simpl] with stdpp loaded. *)
Lemma append_cons (c : ascii) (s1 s2 : string) :
  String c s1 +:+ s2 = String c (s1 +:+ s2).
Proof. reflexivity. Qed.

Lemma append_nil_l (s : string) : EmptyString +:+ s = s.
Proof. reflexivity. Qed.

Lemma append_nil_r (s : string) : s +:+ EmptyString = s.
Proof.
  induction s as [|c s IH]; [reflexivity|]. now rewrite append_cons, IH.
Qed.

Lemma append_assoc (s1 s2 s3 : string) : (s1 +:+ s2) +:+ s3 = s1 +:+ (s2 +:+ s3).
Proof.
  induction s1 as [|c s1 IH]; [reflexivity|]. now rewrite !append_cons, IH.
Qed.

Lemma length_append (s1 s2 : string) :
  String.length (s1 +:+ s2) = (String.length s1 + String.length s2)%nat.
Proof.
  induction s1 as [|c s1 IH]; [reflexivity|]. rewrite append_cons. cbn. now rewrite IH.
Qed.

Lemma length_substring_0 (n : nat) (s : string) :
  (n <= String.length s)%nat -> String.length (String.substring 0 n s) = n.
Proof.
  revert s. induction n as [|n IH]; intros [|c s] Hn; cbn in *; try lia.
  rewrite IH; lia.
Qed.

(** [s[:n]] is a prefix of [s]. *)
Lemma substring_0_prefix (n : nat) (s : string) :
  exists rest, s = String.substring 0 n s +:+ rest.
Proof.
  revert s. induction n as [|n IH]; intros [|c s]; cbn.
  - now exists EmptyString.
  - now exists (String c s).
  - now exists EmptyString.
  - destruct (IH s) as [rest Hrest]. exists rest. now rewrite append_cons, <- Hrest.
Qed.

Example stamped_Version :
  BuildInfo_Version stamped = Ok "v0.0.0-240115103000-abcdef123456".
Proof. reflexivity. Qed.

Example unstamped_Version : BuildInfo_Version unstamped = Ok "(devel)".
Proof. reflexivity. Qed.

(** ** [BuildInfo.Version] *)

Lemma eqb_empty_false (s : string) : s <> EmptyString -> String.eqb s EmptyString = false.
Proof. intros Hs. now apply String.eqb_neq. Qed.

(** Where the synthesis returns: [Version] returns the override when it is
    not empty, whatever the build metadata; with an empty override it
    returns the pseudo-version that the synthesis yields when that is not
    empty, and the version of the main module when the synthesis yields the
    empty string. *)
Theorem Version_priority (info : debug.BuildInfo) (override : string) :
  let bi := mkBuildInfo info override in
  (override <> EmptyString -> BuildInfo_Version bi = Ok override)
  /\ (forall v, override = EmptyString -> BuildInfo_pseudoVersion bi = Ok v ->
        v <> EmptyString -> BuildInfo_Version bi = Ok v)
  /\ (override = EmptyString -> BuildInfo_pseudoVersion bi = Ok EmptyString ->
        BuildInfo_Version bi = Ok (debug.Version (debug.Main info))).
Proof.
  cbn zeta. unfold BuildInfo_Version. cbn [version buildInfo].
  repeat split.
  - intros Hne. now rewrite (eqb_empty_false _ Hne).
  - intros v -> Hv Hne. rewrite Hv. cbn. now rewrite (eqb_empty_false _ Hne).
  - intros -> Hv. rewrite Hv. reflexivity.
Qed.

Lemma Version_priority_witness :
  BuildInfo_Version (mkBuildInfo (buildInfo timeOnly) "v2.0.0") = Ok "v2.0.0"
  /\ BuildInfo_Version stamped = Ok "v0.0.0-240115103000-abcdef123456"
  /\ BuildInfo_Version unstamped = Ok "(devel)".
Proof.
  split; [|split].
  - apply (proj1 (Version_priority (buildInfo timeOnly) "v2.0.0")). discriminate.
  - apply (proj1 (proj2 (Version_priority (buildInfo stamped) EmptyString)));
      [reflexivity | reflexivity | discriminate].
  - apply (proj2 (proj2 (Version_priority (buildInfo unstamped) EmptyString)));
      reflexivity.
Defined.

(** C1.  With an empty override, a build time that parses and no revision,
    the synthesis yields no result, non-empty or empty: it panics, and so
    does [Version], where the third tier is the version of the main
    module, [(devel)]. *)
Theorem Version_third_tier_panics :
  version timeOnly = EmptyString
  /\ BuildInfo_pseudoVersion timeOnly = Panic "slice bounds out of range"
  /\ debug.Version (debug.Main (buildInfo timeOnly)) = "(devel)"
  /\ BuildInfo_Version timeOnly = Panic "slice bounds out of range"
  /\ BuildInfo_Version timeOnly <> Ok "(devel)".
Proof. repeat split. discriminate. Qed.

(** The synthesis yields the empty string exactly when the build time does
    not parse; so the third tier is the one of an unparseable build time. *)
Lemma pseudoVersion_empty (bi : BuildInfo) :
  BuildInfo_pseudoVersion bi = Ok EmptyString
  <-> time.ParseRFC3339 (BuildInfo_Time bi) = None.
Proof.
  unfold BuildInfo_pseudoVersion.
  destruct (time.ParseRFC3339 (BuildInfo_Time bi)) as [t|]; [|tauto].
  destruct (slice_to (BuildInfo_Revision bi) 12); split; intros Heq; discriminate.
Qed.

(** ** Missing settings *)

Lemma Revision_missing (bi : BuildInfo) :
  ~ hasKey "vcs.revision" (debug.Settings (buildInfo bi)) ->
  BuildInfo_Revision bi = EmptyString.
Proof.
  unfold BuildInfo_Revision. induction (debug.Settings (buildInfo bi)) as [|s l IH];
    intros Hmiss; cbn; [reflexivity|].
  destruct (String.eqb_spec (debug.Key s) "vcs.revision") as [Heq|_].
  - exfalso. apply Hmiss. exists s. split; [now left | exact Heq].
  - apply IH. intros (s' & Hin & Hk). apply Hmiss. exists s'. split; [now right | exact Hk].
Qed.

Lemma Time_missing (bi : BuildInfo) :
  ~ hasKey "vcs.time" (debug.Settings (buildInfo bi)) ->
  BuildInfo_Time bi = EmptyString.
Proof.
  unfold BuildInfo_Time. induction (debug.Settings (buildInfo bi)) as [|s l IH];
    intros Hmiss; cbn; [reflexivity|].
  destruct (String.eqb_spec (debug.Key s) "vcs.time") as [Heq|_].
  - exfalso. apply Hmiss. exists s. split; [now left | exact Heq].
  - apply IH. intros (s' & Hin & Hk). apply Hmiss. exists s'. split; [now right | exact Hk].
Qed.

Lemma Modified_missing (bi : BuildInfo) :
  ~ hasKey "vcs.modified" (debug.Settings (buildInfo bi)) ->
  BuildInfo_Modified bi = false.
Proof.
  unfold BuildInfo_Modified. induction (debug.Settings (buildInfo bi)) as [|s l IH];
    intros Hmiss; cbn; [reflexivity|].
  destruct (String.eqb_spec (debug.Key s) "vcs.modified") as [Heq|_].
  - exfalso. apply Hmiss. exists s. split; [now left | exact Heq].
  - apply IH. intros (s' & Hin & Hk). apply Hmiss. exists s'. split; [now right | exact Hk].
Qed.

(** A value of [vcs.modified] that is no boolean gives [false]. *)
Lemma Modified_unparseable (info : debug.BuildInfo) (override v : string)
    (rest : list debug.BuildSetting) :
  strconv.ParseBool v = None ->
  BuildInfo_Modified
    (mkBuildInfo (debug.mkBuildInfo (debug.GoVersion info) (debug.Main info)
                    (setting "vcs.modified" v :: rest)) override) = false.
Proof. intros Hv. unfold BuildInfo_Modified. cbn. now rewrite Hv. Qed.

(** Without a build time the synthesis yields nothing and [Version] falls
    through to the main module: no panic, whatever the revision. *)
Lemma Version_without_time (bi : BuildInfo) :
  ~ hasKey "vcs.time" (debug.Settings (buildInfo bi)) ->
  version bi = EmptyString ->
  BuildInfo_Version bi = Ok (debug.Version (debug.Main (buildInfo bi))).
Proof.
  intros Hmiss Hv. unfold BuildInfo_Version, BuildInfo_pseudoVersion.
  rewrite Hv, (Time_missing bi Hmiss). reflexivity.
Qed.

(** C2.  With a parseable [vcs.time] and no [vcs.revision], the revision is
    the empty string, its slicing to twelve bytes is out of range, and
    [Version] panics rather than returning a default. *)
Theorem Version_panics_without_revision :
  ~ hasKey "vcs.revision" (debug.Settings (buildInfo timeOnly))
  /\ BuildInfo_Revision timeOnly = EmptyString
  /\ BuildInfo_Time timeOnly = "2024-01-15T10:30:00Z"
  /\ BuildInfo_Modified timeOnly = false
  /\ BuildInfo_Version timeOnly = Panic "slice bounds out of range".
Proof.
  split; [|repeat split].
  intros (s & [Hs|[]] & Hk). subst s. discriminate Hk.
Qed.

(** ** The pseudo-version *)

Lemma isDigit_digitVal (c : ascii) : isDigit c = true -> (0 <= digitVal c <= 9)%Z.
Proof. unfold isDigit, digitVal. lia. Qed.

Lemma digitChar_isDigit (d : Z) : (0 <= d <= 9)%Z -> isDigit (digitChar d) = true.
Proof.
  intros Hd.
  assert (d = 0 \/ d = 1 \/ d = 2 \/ d = 3 \/ d = 4 \/ d = 5 \/ d = 6 \/ d = 7
          \/ d = 8 \/ d = 9)%Z as Hcases by lia.
  repeat (destruct Hcases as [-> | Hcases]; [reflexivity|]). now subst d.
Qed.

Lemma getnum_range (s rest : string) (fixed : bool) (n : Z) :
  time.getnum s fixed = Some (n, rest) -> (0 <= n <= 99)%Z.
Proof.
  unfold time.getnum. intros Hn.
  repeat case_match; simplify_eq;
    repeat match goal with
           | Hd : isDigit _ = true |- _ => apply isDigit_digitVal in Hd
           end; lia.
Qed.

Lemma getLongYear_range (s rest : string) (y : Z) :
  time.getLongYear s = Some (y, rest) -> (0 <= y <= 9999)%Z.
Proof.
  unfold time.getLongYear. intros Hy.
  repeat case_match; simplify_eq.
  repeat match goal with
         | Hd : _ && _ = true |- _ => apply andb_prop in Hd as [? ?]
         end.
  repeat match goal with
         | Hd : isDigit _ = true |- _ => apply isDigit_digitVal in Hd
         end; lia.
Qed.

Lemma daysIn_le (m y : Z) : (time.daysIn m y <= 31)%Z.
Proof. unfold time.daysIn. repeat case_match; lia. Qed.

Lemma check_Some (b : bool) (u : unit) : time.check b = Some u -> b = true.
Proof. now destruct b. Qed.

(** The fields of a parsed time are those of a calendar date and a time of
    day. *)
Lemma ParseRFC3339_range (value : string) (t : time.Time) :
  time.ParseRFC3339 value = Some t ->
  (0 <= time.year t <= 9999 /\ 1 <= time.month t <= 12 /\ 1 <= time.day t <= 31
   /\ 0 <= time.hour t < 24 /\ 0 <= time.min t < 60 /\ 0 <= time.sec t < 60)%Z.
Proof.
  unfold time.ParseRFC3339. intros Hp.
  repeat match type of Hp with
         | mbind _ ?o = Some _ =>
             let E := fresh "E" in
             destruct o as [?|] eqn:E; [cbn [mbind option_bind] in Hp | discriminate Hp]
         | (let '(_, _) := ?p in _) = Some _ => destruct p
         | match ?p with (_, _) => _ end = Some _ => destruct p
         end.
  injection Hp as <-. cbn.
  apply getLongYear_range in E. apply getnum_range in E1, E4, E6, E9, E12.
  apply check_Some in E2, E7, E10, E13, E16.
  pose proof (daysIn_le z0 z). lia.
Qed.

Lemma appendInt_2 (x : Z) :
  (0 <= x < 100)%Z ->
  time.appendInt x 2
  = String (digitChar (x / 10)) (String (digitChar (x mod 10)) EmptyString).
Proof.
  intros Hx. unfold time.appendInt.
  replace (x <? 0)%Z with false by lia.
  rewrite Z.abs_eq by lia.
  replace (x <? 100)%Z with true by lia. reflexivity.
Qed.

Lemma allDigits_append (s1 s2 : string) :
  allDigits s1 = true -> allDigits s2 = true -> allDigits (s1 +:+ s2) = true.
Proof.
  unfold allDigits. intros H1 H2.
  induction s1 as [|c s1 IH]; [exact H2|].
  rewrite append_cons. cbn in *. apply andb_prop in H1 as [Hc H1].
  now rewrite Hc, IH.
Qed.

Lemma appendInt_2_digits (x : Z) :
  (0 <= x < 100)%Z ->
  String.length (time.appendInt x 2) = 2%nat /\ allDigits (time.appendInt x 2) = true.
Proof.
  intros Hx. rewrite appendInt_2 by exact Hx. split; [reflexivity|].
  assert (0 <= x / 10 <= 9)%Z as Hq by (Z.div_mod_to_equations; lia).
  assert (0 <= x mod 10 <= 9)%Z as Hr by (Z.div_mod_to_equations; lia).
  unfold allDigits. cbn [list_ascii_of_string forallb].
  now rewrite (digitChar_isDigit _ Hq), (digitChar_isDigit _ Hr).
Qed.

(** The layout [060102030405]: two-digit year, month, day, hour on the
    twelve-hour clock, minute and second. *)
Lemma Format_060102030405 (t : time.Time) :
  time.Format t "060102030405"
  = time.appendInt (Z.rem (Z.abs (time.year t)) 100) 2
    +:+ time.appendInt (time.month t) 2
    +:+ time.appendInt (time.day t) 2
    +:+ time.appendInt
          (if (Z.rem (time.hour t) 12 =? 0)%Z then 12%Z else Z.rem (time.hour t) 12) 2
    +:+ time.appendInt (time.min t) 2
    +:+ time.appendInt (time.sec t) 2.
Proof.
  unfold time.Format. cbn [time.chunks time.std0x Ascii.eqb Bool.eqb map
    time.formatChunk String.concat].
  now rewrite append_nil_l.
Qed.

(** The timestamp of a parsed time is twelve decimal digits. *)
Lemma timestamp_digits (value : string) (t : time.Time) :
  time.ParseRFC3339 value = Some t ->
  String.length (time.Format t "060102030405") = 12%nat
  /\ allDigits (time.Format t "060102030405") = true.
Proof.
  intros Hp. apply ParseRFC3339_range in Hp as (Hy & Hm & Hd & Hh & Hmi & Hs).
  rewrite Format_060102030405.
  assert (0 <= Z.rem (Z.abs (time.year t)) 100 < 100)%Z as Hyy
    by (apply Z.rem_bound_pos; lia).
  assert (0 <= (if (Z.rem (time.hour t) 12 =? 0)%Z then 12
                else Z.rem (time.hour t) 12) < 100)%Z as Hhh.
  { pose proof (Z.rem_bound_pos (time.hour t) 12). case_match; lia. }
  destruct (appendInt_2_digits _ Hyy) as [L1 D1].
  destruct (appendInt_2_digits (time.month t)) as [L2 D2]; [lia|].
  destruct (appendInt_2_digits (time.day t)) as [L3 D3]; [lia|].
  destruct (appendInt_2_digits _ Hhh) as [L4 D4].
  destruct (appendInt_2_digits (time.min t)) as [L5 D5]; [lia|].
  destruct (appendInt_2_digits (time.sec t)) as [L6 D6]; [lia|].
  split.
  - rewrite !length_append, L1, L2, L3, L4, L5, L6. reflexivity.
  - repeat apply allDigits_append; assumption.
Qed.

(** C5.  The pseudo-version depends on the build information through its
    time and revision only; and for a time that parses and a revision of at
    least twelve bytes it is [v0.0.0-], twelve decimal digits, [-] and the
    first twelve bytes of the revision. *)
Theorem pseudoVersion_format :
  (forall bi1 bi2 : BuildInfo,
      BuildInfo_Time bi1 = BuildInfo_Time bi2 ->
      BuildInfo_Revision bi1 = BuildInfo_Revision bi2 ->
      BuildInfo_pseudoVersion bi1 = BuildInfo_pseudoVersion bi2)
  /\ (forall (bi : BuildInfo) (t : time.Time),
        time.ParseRFC3339 (BuildInfo_Time bi) = Some t ->
        (12 <= String.length (BuildInfo_Revision bi))%nat ->
        exists timestamp chunk rest : string,
          BuildInfo_pseudoVersion bi = Ok ("v0.0.0-" +:+ timestamp +:+ "-" +:+ chunk)
          /\ String.length timestamp = 12%nat
          /\ allDigits timestamp = true
          /\ String.length chunk = 12%nat
          /\ BuildInfo_Revision bi = chunk +:+ rest).
Proof.
  split.
  - intros bi1 bi2 Ht Hr. unfold BuildInfo_pseudoVersion. now rewrite Ht, Hr.
  - intros bi t Hp Hlen.
    destruct (timestamp_digits _ _ Hp) as [Hl Hd].
    destruct (substring_0_prefix 12 (BuildInfo_Revision bi)) as [rest Hrest].
    exists (time.Format t "060102030405"),
      (String.substring 0 12 (BuildInfo_Revision bi)), rest.
    repeat split; try assumption.
    + unfold BuildInfo_pseudoVersion, slice_to. rewrite Hp.
      apply Nat.leb_le in Hlen. rewrite Hlen. reflexivity.
    + now apply length_substring_0.
Qed.

Lemma pseudoVersion_format_witness :
  BuildInfo_pseudoVersion stamped
  = BuildInfo_pseudoVersion
      (mkBuildInfo (metadata [setting "vcs.time" "2024-01-15T10:30:00Z";
                              setting "vcs.revision" "abcdef123456789"]) "v1.2.3")
  /\ exists timestamp chunk rest : string,
       BuildInfo_pseudoVersion stamped = Ok ("v0.0.0-" +:+ timestamp +:+ "-" +:+ chunk)
       /\ String.length timestamp = 12%nat
       /\ allDigits timestamp = true
       /\ String.length chunk = 12%nat
       /\ BuildInfo_Revision stamped = chunk +:+ rest.
Proof.
  split.
  - apply (proj1 pseudoVersion_format); reflexivity.
  - apply (proj2 pseudoVersion_format stamped (time.mkTime 2024 1 15 10 30 0 0 0)).
    + reflexivity.
    + cbn. lia.
Defined.

(** C6.  Two commit times half an hour apart, before and after 13:00: the
    hour is formatted on the twelve-hour clock, and the pseudo-version of
    the later time sorts before the one of the earlier time. *)
Theorem pseudoVersion_order_reversed :
  exists t1 t2 : time.Time,
    time.ParseRFC3339 "2024-01-15T12:30:00Z" = Some t1
    /\ time.ParseRFC3339 "2024-01-15T13:00:00Z" = Some t2
    /\ time.Before t1 t2 = true
    /\ BuildInfo_pseudoVersion (committedAt "2024-01-15T12:30:00Z")
       = Ok "v0.0.0-240115123000-abcdef123456"
    /\ BuildInfo_pseudoVersion (committedAt "2024-01-15T13:00:00Z")
       = Ok "v0.0.0-240115010000-abcdef123456"
    /\ String.ltb "v0.0.0-240115010000-abcdef123456"
                  "v0.0.0-240115123000-abcdef123456" = true.
Proof.
  exists (time.mkTime 2024 1 15 12 30 0 0 0), (time.mkTime 2024 1 15 13 0 0 0 0).
  repeat split; vm_compute; reflexivity.
Qed.

(** ** Flags *)

Lemma fold_any (l : list flag.Flag) (init : bool) :
  fold_left
    (fun any f => if negb (String.eqb (flag.Name f) "json") then true else any) l init
  = init || existsb (fun f => negb (String.eqb (flag.Name f) "json")) l.
Proof.
  revert init. induction l as [|f l IH]; intros init; cbn.
  - now rewrite orb_false_r.
  - rewrite IH. destruct (String.eqb (flag.Name f) "json"), init; reflexivity.
Qed.

Lemma anyFlag_spec (fs : flag.FlagSet) : anyFlag fs = true <-> fieldFlagSupplied fs.
Proof.
  unfold anyFlag, flag.Visit, fieldFlagSupplied, flag.sortFlags.
  rewrite fold_any, orb_false_l, existsb_exists.
  split.
  - intros (f & Hin & Hname).
    apply list_elem_of_In in Hin. rewrite merge_sort_Permutation in Hin.
    apply list_elem_of_fmap in Hin as ([name f'] & -> & Hin).
    apply elem_of_map_to_list in Hin. exists name, f'. split; [exact Hin|].
    cbn in Hname. apply negb_true_iff, String.eqb_neq in Hname. exact Hname.
  - intros (name & f & Hlook & Hname). exists f. split.
    + apply list_elem_of_In. rewrite merge_sort_Permutation.
      apply list_elem_of_fmap. exists (name, f). split; [reflexivity|].
      now apply elem_of_map_to_list.
    + now apply negb_true_iff, String.eqb_neq.
Qed.

Lemma anyFlag_false (fs : flag.FlagSet) : anyFlag fs = false <-> ~ fieldFlagSupplied fs.
Proof.
  rewrite <- anyFlag_spec. destruct (anyFlag fs); split; intros Hx; try reflexivity;
    try discriminate. exfalso. now apply Hx.
Qed.

Lemma RegisterFlags_ok : versionCmd.RegisterFlags flag.NewFlagSet = Ok newFlags.
Proof. vm_compute. reflexivity. Qed.

(** The long name and the shorthand share one variable. *)
Example shorthand_sets_long :
  (fun fs => versionCmd.testFlag fs "all") <$> parsed ["-a"] = Some true
  /\ (fun fs => versionCmd.testFlag fs "go-version") <$> parsed ["--g"] = Some true
  /\ (fun fs => versionCmd.testFlag fs "number") <$> parsed ["-n=false"] = Some false
  /\ (fun fs => anyFlag fs) <$> parsed ["-n=false"] = Some true
  /\ (fun fs => anyFlag fs) <$> parsed ["--json"] = Some false
  /\ parsed ["--number=maybe"] = None
  /\ parsed ["--verbose"] = None.
Proof. repeat split; vm_compute; reflexivity. Qed.

(** ** Selection of fields *)

Section Selection.

Context {T W : Type} `{VersionInfo T} `{Writer W}.
Variable json_Marshal : gmap string string -> string + error.

Abbreviation writeText := (versionCmd.writeText (T:=T) (W:=W)).
Abbreviation writeJson := (versionCmd.writeJson (T:=T) (W:=W) json_Marshal).
Abbreviation Exec := (versionCmd.Exec (T:=T) (W:=W) json_Marshal).
Abbreviation testFlag := versionCmd.testFlag.
Abbreviation flags := versionCmd.flags.
Abbreviation version := versionCmd.version.

Lemma TrimSpace_space (s : string) : TrimSpace (" " +:+ s) = TrimSpace s.
Proof. reflexivity. Qed.

Lemma marker_after_space : " " +:+ "(modified)" = " (modified)".
Proof. reflexivity. Qed.

Lemma marker_alone : TrimSpace " (modified)" = TrimSpace "(modified)".
Proof. reflexivity. Qed.

#[local] Arguments TrimSpace : simpl never.

(** Brings both sides of a rendering equation to one form. *)
Ltac same_line :=
  unfold newline; cbn [calls sink];
  rewrite ?append_nil_l, ?append_nil_r, ?append_assoc, ?marker_after_space,
    ?TrimSpace_space, ?marker_alone;
  rewrite <- ?app_assoc; cbn [app];
  try match goal with
      | |- context [Write ?s ?p] => destruct (Write s p) as [? [? [?|]]]
      end;
  cbn [calls sink]; rewrite <- ?app_assoc, ?app_nil_r; reflexivity.

Ltac run_render :=
  unfold versionCmd.writeText, versionCmd.writeJson, printed, spec_line, spec_fields,
    spec_data, selection, selects, renderOrder, Fprintln, query, mbind, M_bind, mret,
    M_ret, fmt.Sprintf_sp_s, fmt.Sprint_bool;
  cbn [List.filter].

(** Uses the hypothesis that the selected methods return. *)
Ltac use_answers :=
  repeat match goal with
         | Ha : true = true -> _ |- _ => specialize (Ha eq_refl)
         | Ha : false = true -> _ |- _ => clear Ha
         | Ha : exists _, _ = Ok _ |- _ => destruct Ha as [? Ha]; rewrite Ha
         end.

Lemma writeText_eq (c : versionCmd.versionCmdConfig T) (any all : bool) (w : World W) :
  accessible (version c) (flags c) any all ->
  writeText c any all w
  = printed (spec_line (version c) (flags c) any all) (selection (flags c) any all) w.
Proof.
  intros Hacc.
  pose proof (Hacc FVersion) as Hv. pose proof (Hacc FRevision) as Hr.
  pose proof (Hacc FTime) as Ht. pose proof (Hacc FGoVersion) as Hg.
  pose proof (Hacc FModified) as Hm. clear Hacc.
  unfold answers in *. run_render. unfold selects in *.
  revert Hv Hr Ht Hg Hm.
  generalize (negb any || testFlag (flags c) "number" || all)
             (testFlag (flags c) "revision" || all)
             (testFlag (flags c) "time" || all)
             (testFlag (flags c) "go-version" || all)
             (testFlag (flags c) "modified" || all).
  intros bv br bt bg bm Hv Hr Ht Hg Hm.
  destruct bv, br, bt, bg, bm; use_answers;
    cbn [valueOf isTrue andb app spec_join spec_rest];
    try match goal with |- context [if ?b then _ else _] => destruct b end;
    cbn [valueOf isTrue andb app spec_join spec_rest]; same_line.
Qed.

Lemma writeJson_eq (c : versionCmd.versionCmdConfig T) (any all : bool) (w : World W) :
  accessible (version c) (flags c) any all ->
  writeJson c any all w
  = encoded json_Marshal (spec_data (version c) (flags c) any all)
      (selection (flags c) any all) w.
Proof.
  intros Hacc.
  pose proof (Hacc FVersion) as Hv. pose proof (Hacc FRevision) as Hr.
  pose proof (Hacc FTime) as Ht. pose proof (Hacc FGoVersion) as Hg.
  pose proof (Hacc FModified) as Hm. clear Hacc.
  destruct w as [cs out].
  unfold answers, encoded in *. run_render. unfold selects in *.
  revert Hv Hr Ht Hg Hm.
  generalize (negb any || testFlag (flags c) "number" || all)
             (testFlag (flags c) "revision" || all)
             (testFlag (flags c) "time" || all)
             (testFlag (flags c) "go-version" || all)
             (testFlag (flags c) "modified" || all).
  intros bv br bt bg bm Hv Hr Ht Hg Hm.
  destruct bv, br, bt, bg, bm; cbn [fold_left represent fieldName];
    use_answers; cbn [valueOf isTrue];
    match goal with
    | |- context [json_Marshal ?d] => destruct (json_Marshal d)
    end; same_line.
Qed.

(** Both renderers call the same methods in the same order, also in a run
    that a panicking method cuts short. *)
Lemma render_same_calls (c : versionCmd.versionCmdConfig T) (any all : bool)
    (w : World W) :
  calls (writeText c any all w).2 = calls (writeJson c any all w).2.
Proof.
  run_render.
  generalize (negb any || testFlag (flags c) "number" || all)
             (testFlag (flags c) "revision" || all)
             (testFlag (flags c) "time" || all)
             (testFlag (flags c) "go-version" || all)
             (testFlag (flags c) "modified" || all).
  intros bv br bt bg bm.
  destruct bv; [destruct (Version (version c)); [|reflexivity]|];
    (destruct br; [destruct (Revision (version c)); [|reflexivity]|]);
    (destruct bt; [destruct (Time (version c)); [|reflexivity]|]);
    (destruct bg; [destruct (GoVersion (version c)); [|reflexivity]|]);
    (destruct bm; [destruct (Modified (version c)); [|reflexivity]|]);
    cbn [calls sink fst snd];
    try match goal with
        | |- context [json_Marshal ?d] => destruct (json_Marshal d)
        end;
    repeat match goal with
           | |- context [Write ?s ?p] => destruct (Write s p) as [? [? [?|]]]
           end;
    reflexivity.
Qed.

Lemma dom_fold_insert (v : T) (l : list Field) (data : gmap string string) :
  dom (fold_left (fun data f => <[fieldName f := represent v f]> data) l data)
  = dom data ∪ list_to_set (fieldName <$> l).
Proof.
  revert data. induction l as [|f l IH]; intros data; cbn.
  - now rewrite union_empty_r_L.
  - rewrite IH, dom_insert_L, (union_comm_L {[fieldName f]} (dom data)).
    now rewrite <- (assoc_L (∪)).
Qed.

(** The keys of the JSON object are the names of the selected fields. *)
Lemma dom_spec_data (v : T) (fs : flag.FlagSet) (any all : bool) :
  dom (spec_data v fs any all) = list_to_set (fieldName <$> selection fs any all).
Proof. unfold spec_data. now rewrite dom_fold_insert, dom_empty_L, union_empty_l_L. Qed.

(** [Exec] reads the flag set for the flags that were set and for the
    values of [all] and [json], and hands over to a renderer. *)
Lemma Exec_eq (c : versionCmd.versionCmdConfig T) :
  Exec c
  = if testFlag (flags c) "json"
    then writeJson c (anyFlag (flags c)) (testFlag (flags c) "all")
    else writeText c (anyFlag (flags c)) (testFlag (flags c) "all").
Proof. reflexivity. Qed.

Lemma Exec_calls (c : versionCmd.versionCmdConfig T) (w : World W) :
  accessible (version c) (flags c) (anyFlag (flags c)) (testFlag (flags c) "all") ->
  calls (Exec c w).2
  = (calls w ++ selection (flags c) (anyFlag (flags c)) (testFlag (flags c) "all"))%list.
Proof.
  intros Hacc. rewrite Exec_eq.
  destruct (testFlag (flags c) "json").
  - rewrite writeJson_eq by exact Hacc. unfold encoded, printed.
    destruct (json_Marshal _); [|reflexivity].
    now destruct (Write _ _) as [? [? ?]].
  - rewrite writeText_eq by exact Hacc. unfold printed.
    now destruct (Write _ _) as [? [? ?]].
Qed.

Lemma elem_of_selection (fs : flag.FlagSet) (any all : bool) (f : Field) :
  f ∈ selection fs any all <-> selects fs any all f = true.
Proof.
  unfold selection. rewrite list_elem_of_In, filter_In. split; [tauto|].
  intros Hsel. split; [|exact Hsel]. destruct f; cbn; tauto.
Qed.

(** The fields that the text line is built from are those of the
    selection. *)
Lemma spec_fields_selection (v : T) (fs : flag.FlagSet) (any all : bool) :
  spec_fields v fs any all = flat_map (fieldText v) (selection fs any all).
Proof.
  unfold spec_fields, selection, renderOrder. cbn [List.filter].
  destruct (selects fs any all FVersion), (selects fs any all FRevision),
    (selects fs any all FTime), (selects fs any all FGoVersion),
    (selects fs any all FModified); cbn [flat_map fieldText andb app];
    rewrite ?app_nil_r; reflexivity.
Qed.

Lemma selection_sublist (fs : flag.FlagSet) (any all : bool) :
  sublist (selection fs any all) renderOrder.
Proof.
  unfold selection, renderOrder. cbn [List.filter].
  destruct (selects fs any all FVersion), (selects fs any all FRevision),
    (selects fs any all FTime), (selects fs any all FGoVersion),
    (selects fs any all FModified);
    repeat first [apply sublist_nil | apply sublist_skip | apply sublist_cons].
Qed.

(** What the command writes, from the selected fields. *)
Lemma Exec_rendering (c : versionCmd.versionCmdConfig T) (w : World W) :
  accessible (version c) (flags c) (anyFlag (flags c)) (testFlag (flags c) "all") ->
  let fields := selection (flags c) (anyFlag (flags c)) (testFlag (flags c) "all") in
  Exec c w
  = if testFlag (flags c) "json"
    then encoded json_Marshal (objectOf (version c) fields) fields w
    else printed (lineOf (version c) fields) fields w.
Proof.
  intros Hacc fields. subst fields. rewrite Exec_eq.
  destruct (testFlag (flags c) "json").
  - now rewrite (writeJson_eq c _ _ w Hacc).
  - rewrite (writeText_eq c _ _ w Hacc). unfold spec_line, lineOf.
    now rewrite spec_fields_selection.
Qed.

(** C3.  In a run whose selected methods return, the version number is
    included exactly when no flag other than [json] was supplied or the
    value of [number] or of [all] is true, and each other field exactly when
    the value of its own flag or of [all] is true; with [all] true the five
    fields are included.  The included fields are those whose methods the
    renderer queries, in the order of rendering, and they are what it
    writes: the text line built from their values, or with [json] the
    encoding of the object that has their names as keys. *)
Theorem selection_rule (c : versionCmd.versionCmdConfig T) (out : W) :
  accessible (version c) (flags c) (anyFlag (flags c)) (testFlag (flags c) "all") ->
  let queried := calls (Exec c (fresh out)).2 in
  (FVersion ∈ queried
   <-> ~ fieldFlagSupplied (flags c) \/ testFlag (flags c) "number" = true
       \/ testFlag (flags c) "all" = true)
  /\ (FRevision ∈ queried
      <-> testFlag (flags c) "revision" = true \/ testFlag (flags c) "all" = true)
  /\ (FTime ∈ queried
      <-> testFlag (flags c) "time" = true \/ testFlag (flags c) "all" = true)
  /\ (FGoVersion ∈ queried
      <-> testFlag (flags c) "go-version" = true \/ testFlag (flags c) "all" = true)
  /\ (FModified ∈ queried
      <-> testFlag (flags c) "modified" = true \/ testFlag (flags c) "all" = true)
  /\ (testFlag (flags c) "all" = true ->
      queried = [FVersion; FRevision; FTime; FGoVersion; FModified])
  /\ sublist queried [FVersion; FRevision; FTime; FGoVersion; FModified]
  /\ Exec c (fresh out)
     = if testFlag (flags c) "json"
       then encoded json_Marshal (objectOf (version c) queried) queried (fresh out)
       else printed (lineOf (version c) queried) queried (fresh out).
Proof.
  intros Hacc queried. subst queried. rewrite (Exec_calls c _ Hacc). cbn [fresh calls app].
  split; [|split; [|split; [|split; [|split; [|split; [|split]]]]]].
  8: apply (Exec_rendering c (fresh out) Hacc).
  7: apply selection_sublist.
  all: rewrite ?elem_of_selection; unfold selects;
    rewrite ?orb_true_iff, ?negb_true_iff, ?anyFlag_false; try tauto.
  intros Hall. unfold selection, selects. rewrite Hall, !orb_true_r. reflexivity.
Qed.

(** The renderers depend on the flag set through the selected fields
    only. *)
Lemma writeText_selected (v : T) (fs1 fs2 : flag.FlagSet) (any1 all1 any2 all2 : bool) :
  map (selects fs1 any1 all1) renderOrder = map (selects fs2 any2 all2) renderOrder ->
  writeText (versionCmd.mkConfig v fs1) any1 all1
  = writeText (versionCmd.mkConfig v fs2) any2 all2.
Proof.
  unfold renderOrder. cbn [map selects].
  intros Hsel. injection Hsel as Hv Hr Ht Hg Hm.
  unfold versionCmd.writeText. cbn [versionCmd.flags versionCmd.version].
  now rewrite Hv, Hr, Ht, Hg, Hm.
Qed.

Lemma writeJson_selected (v : T) (fs1 fs2 : flag.FlagSet) (any1 all1 any2 all2 : bool) :
  map (selects fs1 any1 all1) renderOrder = map (selects fs2 any2 all2) renderOrder ->
  writeJson (versionCmd.mkConfig v fs1) any1 all1
  = writeJson (versionCmd.mkConfig v fs2) any2 all2.
Proof.
  unfold renderOrder. cbn [map selects].
  intros Hsel. injection Hsel as Hv Hr Ht Hg Hm.
  unfold versionCmd.writeJson. cbn [versionCmd.flags versionCmd.version].
  now rewrite Hv, Hr, Ht, Hg, Hm.
Qed.

(** [Exec] depends on the flag set through the mode and the selected
    fields only. *)
Lemma Exec_selected (v : T) (fs1 fs2 : flag.FlagSet) (w : World W) :
  selected fs1 = selected fs2 ->
  Exec (versionCmd.mkConfig v fs1) w = Exec (versionCmd.mkConfig v fs2) w.
Proof.
  unfold selected. intros Hboth.
  pose proof (f_equal (hd false) Hboth) as Hj.
  pose proof (f_equal (@tail bool) Hboth) as Hsel. cbn [hd tail] in Hj, Hsel.
  rewrite !Exec_eq. cbn [versionCmd.flags]. rewrite Hj.
  destruct (testFlag fs2 "json").
  - now rewrite (writeJson_selected v fs1 fs2 _ _ _ _ Hsel).
  - now rewrite (writeText_selected v fs1 fs2 _ _ _ _ Hsel).
Qed.

(** The methods that [Exec] calls do not depend on the mode. *)
Lemma Exec_calls_mode (v : T) (fs1 fs2 : flag.FlagSet) (w : World W) :
  tail (selected fs1) = tail (selected fs2) ->
  calls (Exec (versionCmd.mkConfig v fs1) w).2
  = calls (Exec (versionCmd.mkConfig v fs2) w).2.
Proof.
  unfold selected. cbn [tail]. intros Hsel.
  rewrite !Exec_eq. cbn [versionCmd.flags].
  destruct (testFlag fs1 "json"), (testFlag fs2 "json").
  - now rewrite (writeJson_selected v fs1 fs2 _ _ _ _ Hsel).
  - rewrite <- render_same_calls.
    now rewrite (writeText_selected v fs1 fs2 _ _ _ _ Hsel).
  - rewrite render_same_calls.
    now rewrite (writeJson_selected v fs1 fs2 _ _ _ _ Hsel).
  - now rewrite (writeText_selected v fs1 fs2 _ _ _ _ Hsel).
Qed.

(** C4.  For the same flags the two renderers call the same methods in the
    same order, and so does the command in its two modes; and when these
    methods return, the text renderer prints the line made of the selected
    fields and the JSON renderer encodes the object whose keys are the names
    of the same selected fields. *)
Theorem renderers_select_alike (c : versionCmd.versionCmdConfig T) (any all : bool)
    (w : World W) :
  calls (writeText c any all w).2 = calls (writeJson c any all w).2
  /\ (forall fs' : flag.FlagSet,
        tail (selected (flags c)) = tail (selected fs') ->
        calls (Exec c w).2 = calls (Exec (versionCmd.mkConfig (version c) fs') w).2)
  /\ (accessible (version c) (flags c) any all ->
      let fields := selection (flags c) any all in
      writeText c any all w
      = printed (spec_line (version c) (flags c) any all) fields w
      /\ writeJson c any all w
         = encoded json_Marshal (spec_data (version c) (flags c) any all) fields w
      /\ dom (spec_data (version c) (flags c) any all)
         = list_to_set (fieldName <$> fields)).
Proof.
  split; [apply render_same_calls|]. split.
  - intros fs' Hsel. destruct c as [v fs]. now apply Exec_calls_mode.
  - intros Hacc fields. subst fields.
    split; [now apply writeText_eq|]. split; [now apply writeJson_eq|].
    apply dom_spec_data.
Qed.

(** No flag but possibly [json] supplied: the version number alone. *)
Lemma Exec_only_version (v : T) (fs : flag.FlagSet) (json : bool) (w : World W) :
  flagView fs = [false; json; false; false; false; false; false; false] ->
  calls (Exec (versionCmd.mkConfig v fs) w).2 = (calls w ++ [FVersion])%list.
Proof.
  intros Hview. injection Hview as Ha Hj Hall Hn Hr Ht Hg Hm.
  rewrite Exec_eq. cbn [versionCmd.flags]. rewrite Ha, Hj, Hall.
  destruct json; run_render; cbn [versionCmd.flags versionCmd.version];
    rewrite Hn, Hr, Ht, Hg, Hm; cbn [negb orb];
    (destruct (Version v); [|reflexivity]); cbn [calls sink fst snd];
    try match goal with
        | |- context [json_Marshal ?d] => destruct (json_Marshal d)
        end;
    repeat match goal with
           | |- context [Write ?s ?p] => destruct (Write s p) as [? [? [?|]]]
           end;
    reflexivity.
Qed.

(** A field flag supplied, and every value false: an empty line. *)
Lemma Exec_nothing (v : T) (fs : flag.FlagSet) (w : World W) :
  flagView fs = [true; false; false; false; false; false; false; false] ->
  Exec (versionCmd.mkConfig v fs) w = printed EmptyString [] w.
Proof.
  intros Hview. injection Hview as Ha Hj Hall Hn Hr Ht Hg Hm.
  rewrite Exec_eq. cbn [versionCmd.flags]. rewrite Ha, Hj, Hall.
  destruct w as [cs out]. run_render. cbn [versionCmd.flags versionCmd.version].
  rewrite Hn, Hr, Ht, Hg, Hm. cbn [negb orb]. same_line.
Qed.

(** Only [modified] supplied and true, and the tree not modified: the
    method is called and nothing is printed but the newline. *)
Lemma Exec_only_modified (v : T) (fs : flag.FlagSet) (w : World W) :
  flagView fs = [true; false; false; false; false; false; false; true] ->
  Modified v = Ok false ->
  Exec (versionCmd.mkConfig v fs) w = printed EmptyString [FModified] w.
Proof.
  intros Hview Hmod. injection Hview as Ha Hj Hall Hn Hr Ht Hg Hm.
  rewrite Exec_eq. cbn [versionCmd.flags]. rewrite Ha, Hj, Hall.
  run_render. cbn [versionCmd.flags versionCmd.version].
  rewrite Hn, Hr, Ht, Hg, Hm, Hmod. cbn [negb orb]. same_line.
Qed.

(** C7.  When the selected methods return, the text renderer makes one
    [Write], of a line and a newline; the line is the included fields in the
    order Version, Revision, Time, GoVersion, marker, each after the first
    with one space before it, trimmed of white space, the marker being
    included when [Modified] is selected and true.  With [--modified] alone
    and [Modified] false, the line is empty. *)
Theorem text_rendering :
  (forall (c : versionCmd.versionCmdConfig T) (any all : bool) (w : World W),
      accessible (version c) (flags c) any all ->
      writeText c any all w
      = printed (TrimSpace (spec_join (spec_fields (version c) (flags c) any all)))
          (selection (flags c) any all) w)
  /\ (exists fs : flag.FlagSet,
        parsed ["--modified"] = Some fs
        /\ forall (v : T) (w : World W),
            Modified v = Ok false ->
            Exec (versionCmd.mkConfig v fs) w = printed EmptyString [FModified] w).
Proof.
  split.
  - intros c any all w Hacc. now apply writeText_eq.
  - exists (flagsAfter ["--modified"]). split; [vm_compute; reflexivity|].
    intros v w Hmod. apply Exec_only_modified; [vm_compute; reflexivity | exact Hmod].
Qed.

(** C8.  With no flag and with the flag [number] alone, long or short, the
    command does the same: it calls [Version] and no other method, and
    what it prints and returns is the same; so it is in JSON mode. *)
Theorem number_is_default :
  exists fs0 fs1 fs2 js0 js1 : flag.FlagSet,
    parsed [] = Some fs0
    /\ parsed ["--number"] = Some fs1
    /\ parsed ["-n"] = Some fs2
    /\ parsed ["--json"] = Some js0
    /\ parsed ["--json"; "--number"] = Some js1
    /\ forall (v : T) (w : World W),
        Exec (versionCmd.mkConfig v fs0) w = Exec (versionCmd.mkConfig v fs1) w
        /\ Exec (versionCmd.mkConfig v fs0) w = Exec (versionCmd.mkConfig v fs2) w
        /\ Exec (versionCmd.mkConfig v js0) w = Exec (versionCmd.mkConfig v js1) w
        /\ calls (Exec (versionCmd.mkConfig v fs0) w).2 = (calls w ++ [FVersion])%list
        /\ calls (Exec (versionCmd.mkConfig v js0) w).2 = (calls w ++ [FVersion])%list.
Proof.
  exists (flagsAfter []), (flagsAfter ["--number"]), (flagsAfter ["-n"]),
    (flagsAfter ["--json"]), (flagsAfter ["--json"; "--number"]).
  do 5 (split; [vm_compute; reflexivity|]).
  intros v w. split; [|split; [|split; [|split]]].
  - apply Exec_selected. vm_compute. reflexivity.
  - apply Exec_selected. vm_compute. reflexivity.
  - apply Exec_selected. vm_compute. reflexivity.
  - apply (Exec_only_version v _ false). vm_compute. reflexivity.
  - apply (Exec_only_version v _ true). vm_compute. reflexivity.
Qed.

(** C9.  When the selected methods return: a failure of the encoding is
    returned wrapped in an error that names the encoding, and nothing is
    written; a failure of the one [Write] is returned wrapped in an error
    that names the writing, by either renderer; and when both succeed the
    renderer returns no error.  The sink is left as that [Write] left it. *)
Theorem render_errors (c : versionCmd.versionCmdConfig T) (any all : bool)
    (w : World W) :
  accessible (version c) (flags c) any all ->
  let fields := selection (flags c) any all in
  let data := spec_data (version c) (flags c) any all in
  let line := spec_line (version c) (flags c) any all in
  (forall err : error,
      json_Marshal data = inr err ->
      writeJson c any all w
      = (Ok (Some (wrapError ("error encoding version information: " +:+ Error err) err)),
         mkWorld (calls w ++ fields) (sink w)))
  /\ (forall (m : string) (sink' : W) (n : Z) (err : error),
        json_Marshal data = inl m ->
        Write (sink w) (m +:+ newline) = (sink', (n, Some err)) ->
        writeJson c any all w
        = (Ok (Some (wrapError ("error writing version information: " +:+ Error err) err)),
           mkWorld (calls w ++ fields) sink'))
  /\ (forall (m : string) (sink' : W) (n : Z),
        json_Marshal data = inl m ->
        Write (sink w) (m +:+ newline) = (sink', (n, None)) ->
        writeJson c any all w = (Ok None, mkWorld (calls w ++ fields) sink'))
  /\ (forall (sink' : W) (n : Z) (err : error),
        Write (sink w) (line +:+ newline) = (sink', (n, Some err)) ->
        writeText c any all w
        = (Ok (Some (wrapError ("error writing version information: " +:+ Error err) err)),
           mkWorld (calls w ++ fields) sink'))
  /\ (forall (sink' : W) (n : Z),
        Write (sink w) (line +:+ newline) = (sink', (n, None)) ->
        writeText c any all w = (Ok None, mkWorld (calls w ++ fields) sink')).
Proof.
  intros Hacc fields data line. subst fields data line.
  rewrite (writeJson_eq c any all w Hacc), (writeText_eq c any all w Hacc).
  unfold encoded, printed. split; [|split; [|split; [|split]]].
  - intros err ->. reflexivity.
  - intros m sink' n err -> ->. reflexivity.
  - intros m sink' n -> ->. reflexivity.
  - intros sink' n err ->. reflexivity.
  - intros sink' n ->. reflexivity.
Qed.

(** C10.  After any one field flag given as [--name=false], the flag counts
    as supplied, the value of every field flag is false, and in text mode
    the command calls no method and prints an empty line. *)
Theorem explicit_false_prints_nothing :
  Forall
    (fun name : string =>
       exists fs : flag.FlagSet,
         parsed ["--" +:+ name +:+ "=false"] = Some fs
         /\ fieldFlagSupplied fs
         /\ Forall (fun name' => testFlag fs name' = false) ("json" :: fieldFlagNames)
         /\ forall (v : T) (w : World W),
             Exec (versionCmd.mkConfig v fs) w = printed EmptyString [] w)
    fieldFlagNames.
Proof.
  unfold fieldFlagNames.
  repeat (apply List.Forall_cons;
          [ match goal with
            | |- exists _, parsed ?a = _ /\ _ => exists (flagsAfter a)
            end;
            split; [vm_compute; reflexivity|];
            split; [apply anyFlag_spec; vm_compute; reflexivity|];
            split; [repeat (apply List.Forall_cons; [vm_compute; reflexivity|]);
                    apply List.Forall_nil|];
            intros info w; apply Exec_nothing; vm_compute; reflexivity
          | ]).
  apply List.Forall_nil.
Qed.

End Selection.

(** ** The command at work *)

Lemma static_accessible (i : staticInfo) (fs : flag.FlagSet) (any all : bool) :
  accessible i fs any all.
Proof. intros f _. destruct f; eexists; reflexivity. Qed.

Example output_all :
  output release ["--all"]
  = (Ok None, ["v1.2.3 abcdef123456 2024-01-15T10:30:00Z go1.21 (modified)" +:+ newline]).
Proof. vm_compute. reflexivity. Qed.

Example output_default : output release [] = (Ok None, ["v1.2.3" +:+ newline]).
Proof. vm_compute. reflexivity. Qed.

Example output_revision_time :
  output release ["-r"; "-t"]
  = (Ok None, ["abcdef123456 2024-01-15T10:30:00Z" +:+ newline]).
Proof. vm_compute. reflexivity. Qed.

Example output_override :
  output (mkBuildInfo (buildInfo stamped) "v2.0.0") [] = (Ok None, ["v2.0.0" +:+ newline]).
Proof. vm_compute. reflexivity. Qed.

Example output_json :
  output stamped ["--json"; "-n"; "-m"]
  = (Ok None,
     ["{" +:+ quoted "Modified" +:+ ":" +:+ quoted "true" +:+ ","
      +:+ quoted "Version" +:+ ":" +:+ quoted "v0.0.0-240115103000-abcdef123456"
      +:+ "}" +:+ newline]).
Proof. vm_compute. reflexivity. Qed.

(** The panic of [Version] reaches the caller of the command only when the
    version number is selected. *)
Example output_panic :
  (output timeOnly []).1 = Panic "slice bounds out of range"
  /\ output timeOnly ["--time"] = (Ok None, ["2024-01-15T10:30:00Z" +:+ newline]).
Proof. split; vm_compute; reflexivity. Qed.

Lemma selection_rule_witness :
  FRevision ∈ calls (versionCmd.Exec compactObject
                       (versionCmd.mkConfig release (flagsAfter ["-r"; "--json"]))
                       (fresh ([] : list string))).2.
Proof.
  apply (proj1 (proj2 (selection_rule compactObject
                         (versionCmd.mkConfig release (flagsAfter ["-r"; "--json"]))
                         ([] : list string)
                         (static_accessible _ _ _ _)))).
  left. vm_compute. reflexivity.
Defined.

Lemma renderers_select_alike_witness :
  let c := versionCmd.mkConfig release (flagsAfter ["-r"; "-m"]) in
  let w := fresh ([] : list string) in
  calls (versionCmd.writeText c true false w).2
  = calls (versionCmd.writeJson compactObject c true false w).2
  /\ calls (versionCmd.Exec compactObject c w).2
     = calls (versionCmd.Exec compactObject
                (versionCmd.mkConfig release (flagsAfter ["--json"; "-m"; "-r"])) w).2
  /\ dom (spec_data release (flagsAfter ["-r"; "-m"]) true false)
     = list_to_set (fieldName <$> selection (flagsAfter ["-r"; "-m"]) true false).
Proof.
  cbn zeta.
  pose proof (renderers_select_alike compactObject
                (versionCmd.mkConfig release (flagsAfter ["-r"; "-m"])) true false
                (fresh ([] : list string))) as (Hcalls & Hmode & Hrest).
  split; [exact Hcalls|]. split.
  - apply Hmode. vm_compute. reflexivity.
  - exact (proj2 (proj2 (Hrest (static_accessible _ _ _ _)))).
Defined.

Lemma text_rendering_witness :
  versionCmd.writeText (versionCmd.mkConfig release (flagsAfter ["-a"])) true true
    (fresh ([] : list string))
  = printed (TrimSpace (spec_join (spec_fields release (flagsAfter ["-a"]) true true)))
      (selection (flagsAfter ["-a"]) true true) (fresh [])
  /\ exists fs : flag.FlagSet,
       parsed ["--modified"] = Some fs
       /\ versionCmd.Exec compactObject
            (versionCmd.mkConfig (mkStatic "v1.2.3" "abcdef123456" "" false "go1.21") fs)
            (fresh ([] : list string))
          = printed EmptyString [FModified] (fresh []).
Proof.
  destruct (text_rendering (T:=staticInfo) (W:=list string) compactObject)
    as [Htext (fs & Hfs & Hmod)].
  split.
  - apply Htext. apply static_accessible.
  - exists fs. split; [exact Hfs|]. apply Hmod. reflexivity.
Defined.

Lemma render_errors_witness :
  versionCmd.writeJson brokenMarshal (versionCmd.mkConfig release newFlags) false false
    (fresh (Closed 0))
  = (Ok (Some (wrapError
                 "error encoding version information: json: unsupported value"
                 (errorString "json: unsupported value"))),
     mkWorld [FVersion] (Closed 0))
  /\ versionCmd.writeText (versionCmd.mkConfig release newFlags) false false
       (fresh (Closed 0))
     = (Ok (Some (wrapError
                    "error writing version information: io: read/write on closed pipe"
                    ErrClosedPipe)),
        mkWorld [FVersion] (Closed 1))
  /\ versionCmd.writeText (versionCmd.mkConfig release newFlags) false false
       (fresh ([] : list string))
     = (Ok None, mkWorld [FVersion] ["v1.2.3" +:+ newline]).
Proof.
  split; [|split].
  - exact (proj1 (render_errors brokenMarshal
                    (versionCmd.mkConfig release newFlags) false false
                    (fresh (Closed 0)) (static_accessible _ _ _ _))
             (errorString "json: unsupported value") eq_refl).
  - exact (proj1 (proj2 (proj2 (proj2
             (render_errors brokenMarshal
                (versionCmd.mkConfig release newFlags) false false
                (fresh (Closed 0)) (static_accessible _ _ _ _)))))
             (Closed 1) 0%Z ErrClosedPipe eq_refl).
  - exact (proj2 (proj2 (proj2 (proj2
             (render_errors brokenMarshal
                (versionCmd.mkConfig release newFlags) false false
                (fresh ([] : list string)) (static_accessible _ _ _ _)))))
             ["v1.2.3" +:+ newline] 7%Z eq_refl).
Defined.

(** * Further properties *)

(** ** Lookup of settings *)

Lemma Revision_loop_first (pre post : list debug.BuildSetting) (s : debug.BuildSetting) :
  debug.Key s = "vcs.revision" -> ~ hasKey "vcs.revision" pre ->
  Revision_loop (pre ++ s :: post) = debug.Value s.
Proof.
  intros Hs. induction pre as [|p pre IH]; intros Hpre; cbn.
  - now rewrite Hs.
  - destruct (String.eqb_spec (debug.Key p) "vcs.revision") as [Hp|_].
    + exfalso. apply Hpre. exists p. split; [now left | exact Hp].
    + apply IH. intros (q & Hin & Hq). apply Hpre. exists q. split; [now right | exact Hq].
Qed.

Lemma Time_loop_first (pre post : list debug.BuildSetting) (s : debug.BuildSetting) :
  debug.Key s = "vcs.time" -> ~ hasKey "vcs.time" pre ->
  Time_loop (pre ++ s :: post) = debug.Value s.
Proof.
  intros Hs. induction pre as [|p pre IH]; intros Hpre; cbn.
  - now rewrite Hs.
  - destruct (String.eqb_spec (debug.Key p) "vcs.time") as [Hp|_].
    + exfalso. apply Hpre. exists p. split; [now left | exact Hp].
    + apply IH. intros (q & Hin & Hq). apply Hpre. exists q. split; [now right | exact Hq].
Qed.

(** X1.  [Revision] and [Time] return the value of the first setting with
    their key: the settings before it with other keys and all the settings
    after it, also one with the same key, do not count. *)
Theorem first_setting_wins (info : debug.BuildInfo) (override : string)
    (pre post : list debug.BuildSetting) (s : debug.BuildSetting) :
  debug.Settings info = (pre ++ s :: post)%list ->
  (debug.Key s = "vcs.revision" -> ~ hasKey "vcs.revision" pre ->
   BuildInfo_Revision (mkBuildInfo info override) = debug.Value s)
  /\ (debug.Key s = "vcs.time" -> ~ hasKey "vcs.time" pre ->
      BuildInfo_Time (mkBuildInfo info override) = debug.Value s).
Proof.
  intros Hset. unfold BuildInfo_Revision, BuildInfo_Time. cbn [buildInfo].
  rewrite Hset. split; intros Hs Hpre.
  - now apply Revision_loop_first.
  - now apply Time_loop_first.
Qed.

Lemma first_setting_wins_witness :
  BuildInfo_Revision
    (mkBuildInfo (metadata [setting "vcs" "git"; setting "vcs.revision" "0123456789abcdef";
                            setting "vcs.revision" "fedcba9876543210"]) EmptyString)
  = "0123456789abcdef".
Proof.
  apply (proj1 (first_setting_wins
                  (metadata [setting "vcs" "git"; setting "vcs.revision" "0123456789abcdef";
                             setting "vcs.revision" "fedcba9876543210"])
                  EmptyString [setting "vcs" "git"] [setting "vcs.revision" "fedcba9876543210"]
                  (setting "vcs.revision" "0123456789abcdef") eq_refl)).
  - reflexivity.
  - intros (q & [Hq|[]] & Hk). subst q. discriminate Hk.
Defined.

(** X2.  [Modified] is true exactly when the first setting with key
    [vcs.modified] has a value that [strconv.ParseBool] reads as true. *)
Theorem Modified_true_iff (bi : BuildInfo) :
  BuildInfo_Modified bi = true
  <-> exists (pre post : list debug.BuildSetting) (s : debug.BuildSetting),
        debug.Settings (buildInfo bi) = (pre ++ s :: post)%list
        /\ ~ hasKey "vcs.modified" pre
        /\ debug.Key s = "vcs.modified"
        /\ strconv.ParseBool (debug.Value s) = Some true.
Proof.
  unfold BuildInfo_Modified.
  induction (debug.Settings (buildInfo bi)) as [|p l IH]; cbn.
  - split; [discriminate|]. intros (pre & post & s & Heq & _). now destruct pre.
  - destruct (String.eqb_spec (debug.Key p) "vcs.modified") as [Hp|Hp].
    + split.
      * intros Hv. exists [], l, p. repeat split; [|exact Hp|].
        -- intros (q & [] & _).
        -- destruct (strconv.ParseBool (debug.Value p)) as [[|]|]; congruence.
      * intros (pre & post & s & Heq & Hpre & Hs & Hv).
        destruct pre as [|q pre]; cbn in Heq; injection Heq as E1 E2.
        -- rewrite E1. now rewrite Hv.
        -- exfalso. apply Hpre. exists q. split; [now left | now rewrite <- E1].
    + rewrite IH. split.
      * intros (pre & post & s & -> & Hpre & Hs & Hv).
        exists (p :: pre), post, s. repeat split; try assumption.
        intros (q & [<-|Hin] & Hq); [contradiction|].
        apply Hpre. exists q. split; assumption.
      * intros (pre & post & s & Heq & Hpre & Hs & Hv).
        destruct pre as [|q pre]; cbn in Heq; injection Heq as E1 E2.
        -- exfalso. apply Hp. now rewrite E1.
        -- exists pre, post, s. repeat split; try assumption.
           intros (q' & Hin & Hq). apply Hpre. exists q'. split; [now right | exact Hq].
Qed.

(** ** [BuildInfo], further *)

(** The provider whose build information is set panics in [Version]
    exactly when there is no override, the build time parses and the
    revision has fewer than twelve bytes. *)
Lemma BuildInfo_Version_panics (bi : BuildInfo) :
  (exists msg, BuildInfo_Version bi = Panic msg)
  <-> version bi = EmptyString
      /\ is_Some (time.ParseRFC3339 (BuildInfo_Time bi))
      /\ (String.length (BuildInfo_Revision bi) < 12)%nat.
Proof.
  unfold BuildInfo_Version, BuildInfo_pseudoVersion, slice_to.
  destruct (String.eqb_spec (version bi) EmptyString) as [Hv|Hv]; cbn [negb].
  - destruct (time.ParseRFC3339 (BuildInfo_Time bi)) as [t|].
    + destruct (Nat.leb_spec 12 (String.length (BuildInfo_Revision bi))) as [Hl|Hl].
      * split.
        -- intros [msg Hm]. unfold fmt.Sprintf_pseudo in Hm.
           rewrite !append_cons in Hm. cbn in Hm. discriminate Hm.
        -- intros (_ & _ & Hlt). lia.
      * split; [|intros _; eexists; reflexivity].
        intros _. repeat split; [exact Hv | now exists t | exact Hl].
    + split.
      * intros [msg Hm]. cbn in Hm. discriminate Hm.
      * intros (_ & [t Ht] & _). discriminate Ht.
  - split.
    + intros [msg Hm]. discriminate Hm.
    + intros (Hv' & _). contradiction.
Qed.

(** Behind pointers that are set, [Version] is the one of the provider
    that holds the build information itself; the constructors set them. *)
Lemma ptr_Version_set (info : debug.BuildInfo) (override : string) :
  ptr.Version (Some (ptr.mkBuildInfo (Some info) override))
  = BuildInfo_Version (mkBuildInfo info override).
Proof.
  unfold ptr.Version, BuildInfo_Version, ptr.pseudoVersion, BuildInfo_pseudoVersion.
  cbn [ptr.load mbind result_bind ptr.version ptr.buildInfo version buildInfo
       ptr.Time ptr.Revision mret result_ret].
  destruct (negb (String.eqb override EmptyString)); [reflexivity|].
  unfold BuildInfo_Time, BuildInfo_Revision. cbn [buildInfo].
  destruct (time.ParseRFC3339 (Time_loop (debug.Settings info))) as [t|]; [|reflexivity].
  destruct (slice_to (Revision_loop (debug.Settings info)) 12); reflexivity.
Qed.

Lemma ptr_NewBuildInfo (read : option debug.BuildInfo) (override : string) :
  ptr.Version (ptr.NewBuildInfo read override)
  = BuildInfo_Version (NewBuildInfo read override).
Proof. apply ptr_Version_set. Qed.

(** X3.  [Version] on a [*BuildInfo] panics exactly when the receiver is
    nil, or there is no override and either the build information is nil
    (as in the zero value of the struct), or the build time parses and the
    revision has fewer than twelve bytes. *)
Theorem Version_panics_iff (bi : option ptr.BuildInfo) :
  (exists msg, ptr.Version bi = Panic msg)
  <-> bi = None
      \/ exists s, bi = Some s /\ ptr.version s = EmptyString
           /\ (ptr.buildInfo s = None
               \/ exists info, ptr.buildInfo s = Some info
                    /\ is_Some (time.ParseRFC3339 (Time_loop (debug.Settings info)))
                    /\ (String.length (Revision_loop (debug.Settings info)) < 12)%nat).
Proof.
  destruct bi as [[[info|] override]|].
  - rewrite ptr_Version_set, BuildInfo_Version_panics. cbn [version buildInfo].
    unfold BuildInfo_Time, BuildInfo_Revision. cbn [buildInfo].
    split.
    + intros (Hv & Ht & Hl). right. eexists. split; [reflexivity|].
      split; [exact Hv|]. right. exists info. auto.
    + intros [Hnil|(s & Hs & Hv & Hrest)]; [discriminate|].
      injection Hs as <-. cbn in Hv, Hrest.
      destruct Hrest as [Hnil|(info' & Hi & Ht & Hl)]; [discriminate|].
      injection Hi as <-. auto.
  - unfold ptr.Version.
    cbn [ptr.load mbind result_bind ptr.version ptr.buildInfo ptr.pseudoVersion
         ptr.Time mret result_ret].
    destruct (String.eqb_spec override EmptyString) as [Hv|Hv]; cbn [negb].
    + split; [|intros _; eexists; reflexivity].
      intros _. right. eexists. split; [reflexivity|]. split; [exact Hv|]. now left.
    + split.
      * intros [msg Hm]. discriminate Hm.
      * intros [Hnil|(s & Hs & Hv' & _)]; [discriminate|].
        injection Hs as <-. contradiction.
  - split; [intros _; now left | intros _; eexists; reflexivity].
Qed.

Lemma Version_panics_iff_witness :
  (exists msg, ptr.Version (Some (ptr.mkBuildInfo None EmptyString)) = Panic msg)
  /\ (exists msg, ptr.Version (Some (ptr.mkBuildInfo (Some (buildInfo timeOnly))
                                       EmptyString))
                  = Panic msg).
Proof.
  split.
  - apply (proj2 (Version_panics_iff (Some (ptr.mkBuildInfo None EmptyString)))).
    right. eexists. split; [reflexivity|]. split; [reflexivity|]. now left.
  - apply (proj2 (Version_panics_iff
                    (Some (ptr.mkBuildInfo (Some (buildInfo timeOnly)) EmptyString)))).
    right. eexists. split; [reflexivity|]. split; [reflexivity|]. right.
    eexists. split; [reflexivity|]. split; [eexists; reflexivity | cbn; lia].
Defined.

(** X4.  [DefaultVersionInfo] is [NewBuildInfo] with an empty override;
    and when the binary carries no build information, [Version] returns the
    override, also an empty one, and the other methods their defaults. *)
Theorem no_build_info (override : string) :
  (forall read, DefaultVersionInfo read = NewBuildInfo read EmptyString)
  /\ let bi := NewBuildInfo None override in
     BuildInfo_Version bi = Ok override
     /\ BuildInfo_Revision bi = EmptyString
     /\ BuildInfo_Time bi = EmptyString
     /\ BuildInfo_Modified bi = false
     /\ BuildInfo_GoVersion bi = EmptyString.
Proof.
  split; [reflexivity|]. cbn zeta. repeat split.
  unfold BuildInfo_Version, NewBuildInfo. cbn [version].
  destruct (String.eqb_spec override EmptyString) as [->|_]; reflexivity.
Qed.

(** X5.  The pseudo-version keeps of the build time the year modulo 100,
    the month, the day, the hour modulo 12, the minute and the second: two
    builds of one revision whose times agree on these get the same
    pseudo-version, whatever the century, the half of the day, the zone and
    the fraction of the second. *)
Theorem pseudoVersion_collides (bi1 bi2 : BuildInfo) (t1 t2 : time.Time) :
  time.ParseRFC3339 (BuildInfo_Time bi1) = Some t1 ->
  time.ParseRFC3339 (BuildInfo_Time bi2) = Some t2 ->
  BuildInfo_Revision bi1 = BuildInfo_Revision bi2 ->
  Z.rem (time.year t1) 100 = Z.rem (time.year t2) 100 ->
  time.month t1 = time.month t2 ->
  time.day t1 = time.day t2 ->
  Z.rem (time.hour t1) 12 = Z.rem (time.hour t2) 12 ->
  time.min t1 = time.min t2 ->
  time.sec t1 = time.sec t2 ->
  BuildInfo_pseudoVersion bi1 = BuildInfo_pseudoVersion bi2.
Proof.
  intros Hp1 Hp2 Hrev Hy Hm Hd Hh Hmi Hs.
  pose proof (ParseRFC3339_range _ _ Hp1) as (Hy1 & _).
  pose proof (ParseRFC3339_range _ _ Hp2) as (Hy2 & _).
  unfold BuildInfo_pseudoVersion. rewrite Hp1, Hp2, Hrev.
  rewrite !Format_060102030405.
  rewrite !Z.abs_eq by lia.
  now rewrite Hy, Hm, Hd, Hh, Hmi, Hs.
Qed.

Lemma pseudoVersion_collides_witness :
  BuildInfo_pseudoVersion (committedAt "2024-01-15T01:30:00Z")
  = BuildInfo_pseudoVersion (committedAt "1924-01-15T13:30:00.5+02:00").
Proof.
  apply (pseudoVersion_collides _ _ (time.mkTime 2024 1 15 1 30 0 0 0)
           (time.mkTime 1924 1 15 13 30 0 500000000 7200)); reflexivity.
Defined.

Section Rendering.

Context {T W : Type} `{VersionInfo T} `{Writer W}.
Variable json_Marshal : gmap string string -> string + error.

Abbreviation writeText := (versionCmd.writeText (T:=T) (W:=W)).
Abbreviation writeJson := (versionCmd.writeJson (T:=T) (W:=W) json_Marshal).
Abbreviation Exec := (versionCmd.Exec (T:=T) (W:=W) json_Marshal).
Abbreviation testFlag := versionCmd.testFlag.
Abbreviation flags := versionCmd.flags.
Abbreviation version := versionCmd.version.

(** The panic of a selected method ends the run. *)
Ltac panic_step b r :=
  destruct b;
  [ destruct r;
    [ | cbn; intros Hrun; injection Hrun as <- <-; cbn; split; [reflexivity | tauto] ]
  | ].

Ltac no_panic :=
  cbn [calls sink fst snd];
  try match goal with
      | |- context [json_Marshal ?d] => destruct (json_Marshal d)
      end;
  repeat match goal with
         | |- context [Write ?s ?p] => destruct (Write s p) as [? [? [?|]]]
         end;
  intros Hrun; discriminate Hrun.

Lemma writeText_panic (c : versionCmd.versionCmdConfig T) (any all : bool)
    (w w' : World W) (msg : string) :
  writeText c any all w = (Panic msg, w') ->
  sink w' = sink w /\ panicked (version c) msg.
Proof.
  unfold panicked, versionCmd.writeText, Fprintln, query, mbind, M_bind, mret, M_ret.
  generalize (negb any || testFlag (flags c) "number" || all)
             (testFlag (flags c) "revision" || all)
             (testFlag (flags c) "time" || all)
             (testFlag (flags c) "go-version" || all)
             (testFlag (flags c) "modified" || all).
  intros bv br bt bg bm.
  panic_step bv (Version (version c)); panic_step br (Revision (version c));
    panic_step bt (Time (version c)); panic_step bg (GoVersion (version c));
    panic_step bm (Modified (version c)); no_panic.
Qed.

Lemma writeJson_panic (c : versionCmd.versionCmdConfig T) (any all : bool)
    (w w' : World W) (msg : string) :
  writeJson c any all w = (Panic msg, w') ->
  sink w' = sink w /\ panicked (version c) msg.
Proof.
  unfold panicked, versionCmd.writeJson, Fprintln, query, mbind, M_bind, mret, M_ret.
  generalize (negb any || testFlag (flags c) "number" || all)
             (testFlag (flags c) "revision" || all)
             (testFlag (flags c) "time" || all)
             (testFlag (flags c) "go-version" || all)
             (testFlag (flags c) "modified" || all).
  intros bv br bt bg bm.
  panic_step bv (Version (version c)); panic_step br (Revision (version c));
    panic_step bt (Time (version c)); panic_step bg (GoVersion (version c));
    panic_step bm (Modified (version c)); no_panic.
Qed.

(** A selected method that does not return ends the run. *)
Ltac stop_step f r :=
  destruct (selects _ _ _ f) eqn:?;
  [ destruct r eqn:?; [ | cbn; eexists; eexists; reflexivity ] | ].

Ltac all_answer Hnot :=
  exfalso; apply Hnot; intros f Hf; destruct f; unfold answers;
  first [ eexists; eassumption | congruence ].

Ltac name_selection c any all :=
  change (negb any || testFlag (flags c) "number" || all)
    with (selects (flags c) any all FVersion);
  change (testFlag (flags c) "revision" || all)
    with (selects (flags c) any all FRevision);
  change (testFlag (flags c) "time" || all) with (selects (flags c) any all FTime);
  change (testFlag (flags c) "go-version" || all)
    with (selects (flags c) any all FGoVersion);
  change (testFlag (flags c) "modified" || all)
    with (selects (flags c) any all FModified).

Lemma writeText_stops (c : versionCmd.versionCmdConfig T) (any all : bool)
    (w : World W) :
  ~ accessible (version c) (flags c) any all ->
  exists msg w', writeText c any all w = (Panic msg, w').
Proof.
  intros Hnot.
  unfold versionCmd.writeText, Fprintln, query, mbind, M_bind, mret, M_ret.
  name_selection c any all.
  stop_step FVersion (Version (version c)); stop_step FRevision (Revision (version c));
    stop_step FTime (Time (version c)); stop_step FGoVersion (GoVersion (version c));
    stop_step FModified (Modified (version c)); all_answer Hnot.
Qed.

Lemma writeJson_stops (c : versionCmd.versionCmdConfig T) (any all : bool)
    (w : World W) :
  ~ accessible (version c) (flags c) any all ->
  exists msg w', writeJson c any all w = (Panic msg, w').
Proof.
  intros Hnot.
  unfold versionCmd.writeJson, Fprintln, query, mbind, M_bind, mret, M_ret.
  name_selection c any all.
  stop_step FVersion (Version (version c)); stop_step FRevision (Revision (version c));
    stop_step FTime (Time (version c)); stop_step FGoVersion (GoVersion (version c));
    stop_step FModified (Modified (version c)); all_answer Hnot.
Qed.

(** X6.  When a selected method of the [VersionInfo] panics, the command
    panics with the value of a method's panic, and nothing has been
    written to the sink: every selected method is called before the one
    [Write]. *)
Theorem selected_panic_writes_nothing (c : versionCmd.versionCmdConfig T)
    (w : World W) :
  ~ accessible (version c) (flags c) (anyFlag (flags c)) (testFlag (flags c) "all") ->
  exists msg w',
    Exec c w = (Panic msg, w') /\ sink w' = sink w /\ panicked (version c) msg.
Proof.
  intros Hnot. rewrite Exec_eq. destruct (testFlag (flags c) "json").
  - destruct (writeJson_stops c _ _ w Hnot) as (msg & w' & Hrun).
    exists msg, w'. split; [exact Hrun|]. exact (writeJson_panic c _ _ w w' msg Hrun).
  - destruct (writeText_stops c _ _ w Hnot) as (msg & w' & Hrun).
    exists msg, w'. split; [exact Hrun|]. exact (writeText_panic c _ _ w w' msg Hrun).
Qed.

(** X7.  When the selected methods return, the object that the JSON
    renderer encodes has, under the name of each selected field, the value
    of that field as a string ([true] or [false] for Modified), and no
    other key. *)
Theorem json_object (c : versionCmd.versionCmdConfig T) (any all : bool) (w : World W) :
  accessible (version c) (flags c) any all ->
  exists data : gmap string string,
    writeJson c any all w = encoded json_Marshal data (selection (flags c) any all) w
    /\ (forall f : Field,
          data !! fieldName f
          = if selects (flags c) any all f then Some (represent (version c) f) else None)
    /\ (forall k : string, (forall f, k <> fieldName f) -> data !! k = None).
Proof.
  intros Hacc. exists (spec_data (version c) (flags c) any all).
  split; [now apply writeJson_eq|].
  unfold spec_data, selection, renderOrder. cbn [List.filter].
  destruct (selects (flags c) any all FVersion) eqn:Ev,
           (selects (flags c) any all FRevision) eqn:Er,
           (selects (flags c) any all FTime) eqn:Et,
           (selects (flags c) any all FGoVersion) eqn:Eg,
           (selects (flags c) any all FModified) eqn:Em;
    cbn [fold_left fieldName]; (split; [intros f | intros k Hk]);
    try (destruct f; cbn [fieldName];
         rewrite ?Ev, ?Er, ?Et, ?Eg, ?Em; simplify_map_eq; reflexivity);
    pose proof (Hk FVersion); pose proof (Hk FRevision); pose proof (Hk FTime);
    pose proof (Hk FGoVersion); pose proof (Hk FModified); cbn [fieldName] in *;
    simplify_map_eq; reflexivity.
Qed.

(** X8.  When every string field is empty and the tree is not modified,
    as for a binary without build information, the text renderer prints an
    empty line whatever the selection. *)
Theorem empty_fields_empty_line (c : versionCmd.versionCmdConfig T) (any all : bool)
    (w : World W) :
  Version (version c) = Ok EmptyString ->
  Revision (version c) = Ok EmptyString ->
  Time (version c) = Ok EmptyString ->
  GoVersion (version c) = Ok EmptyString ->
  Modified (version c) = Ok false ->
  writeText c any all w = printed EmptyString (selection (flags c) any all) w.
Proof.
  intros Hv Hr Ht Hg Hm.
  rewrite writeText_eq.
  - f_equal. unfold spec_line, spec_fields. rewrite Hv, Hr, Ht, Hg, Hm.
    cbn [valueOf isTrue].
    destruct (selects (flags c) any all FVersion), (selects (flags c) any all FRevision),
      (selects (flags c) any all FTime), (selects (flags c) any all FGoVersion),
      (selects (flags c) any all FModified); reflexivity.
  - intros f _. destruct f; cbn; eauto.
Qed.

End Rendering.

Lemma selected_panic_writes_nothing_witness :
  exists msg w',
    versionCmd.Exec compactObject (versionCmd.mkConfig timeOnly (flagsAfter ["-a"]))
      (fresh ["earlier output"])
    = (Panic msg, w')
    /\ sink w' = ["earlier output"].
Proof.
  destruct (selected_panic_writes_nothing compactObject
              (versionCmd.mkConfig timeOnly (flagsAfter ["-a"]))
              (fresh ["earlier output"]))
    as (msg & w' & Hrun & Hsink & _).
  - intros Hacc. destruct (Hacc FVersion) as [s Hs].
    + vm_compute. reflexivity.
    + vm_compute in Hs. discriminate Hs.
  - exists msg, w'. split; [exact Hrun | exact Hsink].
Defined.

Lemma json_object_witness :
  exists data : gmap string string,
    versionCmd.writeJson compactObject (versionCmd.mkConfig release newFlags) true true
      (fresh ([] : list string))
    = encoded compactObject data (selection newFlags true true) (fresh [])
    /\ data !! "Modified" = Some "true"
    /\ data !! "modified" = None.
Proof.
  destruct (json_object compactObject (versionCmd.mkConfig release newFlags) true true
              (fresh ([] : list string)) (static_accessible _ _ _ _))
    as (data & Hrun & Hfields & Hother).
  exists data. split; [exact Hrun|]. split.
  - exact (Hfields FModified).
  - apply Hother. intros f. destruct f; discriminate.
Defined.

Lemma empty_fields_empty_line_witness :
  versionCmd.writeText (versionCmd.mkConfig (DefaultVersionInfo None) (flagsAfter ["-a"]))
    true true (fresh ([] : list string))
  = printed EmptyString (selection (flagsAfter ["-a"]) true true) (fresh []).
Proof.
  apply (empty_fields_empty_line
           (versionCmd.mkConfig (DefaultVersionInfo None) (flagsAfter ["-a"])) true true
           (fresh ([] : list string))); reflexivity.
Defined.

(** ** Registration of flags *)

Lemma Bool_fresh (fs : flag.FlagSet) (name usage : string) :
  flag.formal fs !! name = None -> wellNamed name = true ->
  flag.Bool fs name false usage
  = Ok (length (flag.vars fs),
        flag.mkFlagSet
          (<[name := flag.mkFlag name usage (length (flag.vars fs)) "false"]> (flag.formal fs))
          (flag.actual fs) (flag.args fs) (flag.vars fs ++ [false])%list).
Proof.
  unfold wellNamed, flag.Bool, flag.BoolVar. cbn [flag.formal flag.actual flag.args flag.vars].
  intros Hnone [Hd He]%andb_prop.
  apply negb_true_iff in Hd, He. rewrite Hd, He, Hnone.
  rewrite insert_app_r_alt by lia. rewrite Nat.sub_diag. reflexivity.
Qed.

Lemma BoolVar_shared (fs : flag.FlagSet) (p : nat) (name usage : string) :
  flag.formal fs !! name = None -> wellNamed name = true ->
  flag.vars fs !! p = Some false ->
  flag.BoolVar fs p name false usage
  = Ok (flag.mkFlagSet (<[name := flag.mkFlag name usage p "false"]> (flag.formal fs))
          (flag.actual fs) (flag.args fs) (flag.vars fs)).
Proof.
  unfold wellNamed, flag.BoolVar. intros Hnone [Hd He]%andb_prop Hp.
  apply negb_true_iff in Hd, He. rewrite Hd, He, Hnone.
  now rewrite list_insert_id.
Qed.

Lemma Bool_defined (fs : flag.FlagSet) (name usage : string) (f : flag.Flag) :
  flag.formal fs !! name = Some f -> wellNamed name = true ->
  flag.Bool fs name false usage = Panic "flag redefined".
Proof.
  unfold wellNamed, flag.Bool, flag.BoolVar. cbn [flag.formal flag.actual flag.args flag.vars].
  intros Hsome [Hd He]%andb_prop.
  apply negb_true_iff in Hd, He. now rewrite Hd, He, Hsome.
Qed.

Lemma BoolVar_defined (fs : flag.FlagSet) (p : nat) (name usage : string) (f : flag.Flag) :
  flag.formal fs !! name = Some f -> wellNamed name = true ->
  flag.BoolVar fs p name false usage = Panic "flag redefined".
Proof.
  unfold wellNamed, flag.BoolVar. intros Hsome [Hd He]%andb_prop.
  apply negb_true_iff in Hd, He. now rewrite Hd, He, Hsome.
Qed.

(** A name cannot be both defined and not defined. *)
Ltac clash :=
  match goal with
  | Hn : flag.formal ?fs !! ?n = None, Hs : flag.formal ?fs !! ?n = Some _ |- _ =>
      rewrite Hn in Hs; discriminate Hs
  end.

(** One registration that succeeds. *)
Ltac look_up :=
  cbn [flag.formal]; rewrite ?lookup_insert_ne by (intros ?; discriminate); eassumption.

Ltac reg_step :=
  first
    [ rewrite Bool_fresh by (look_up || done)
    | rewrite BoolVar_shared;
      [ | look_up | done | cbn [flag.vars]; apply list_lookup_middle; reflexivity ] ];
  cbn [mbind result_bind flag.formal flag.actual flag.args flag.vars].

(** One registration of a name that is defined. *)
Ltac reg_panic :=
  first
    [ erewrite Bool_defined; [reflexivity | look_up | done]
    | erewrite BoolVar_defined; [reflexivity | look_up | done] ].

(** The variables after the registration. *)
Lemma registered_vars (l : list bool) :
  (((((((l ++ [false]) ++ [false]) ++ [false]) ++ [false]) ++ [false]) ++ [false])
   ++ [false])%list
  = (l ++ replicate 7 false)%list.
Proof. rewrite <- !app_assoc. reflexivity. Qed.

Lemma lookup_registered (l : list bool) (k : nat) :
  (k < 7)%nat -> (l ++ replicate 7 false)%list !! (length l + k)%nat = Some false.
Proof.
  intros Hk. rewrite lookup_app_r by lia.
  replace (length l + k - length l)%nat with k by lia.
  do 7 (destruct k as [|k]; [reflexivity|]). lia.
Qed.

Lemma lookup_registered0 (l : list bool) :
  (l ++ replicate 7 false)%list !! length l = Some false.
Proof. pose proof (lookup_registered l 0) as H0. rewrite Nat.add_0_r in H0. apply H0. lia. Qed.

Lemma RegisterFlags_fresh (fs : flag.FlagSet) :
  Forall (fun name => flag.formal fs !! name = None) versionFlagNames ->
  exists fs',
    versionCmd.RegisterFlags fs = Ok fs'
    /\ flag.actual fs' = flag.actual fs
    /\ flag.vars fs' = (flag.vars fs ++ replicate 7 false)%list
    /\ (forall name f, flag.formal fs !! name = Some f -> flag.formal fs' !! name = Some f)
    /\ Forall (fun name => versionCmd.testFlag fs' name = false) versionFlagNames.
Proof.
  intros Hnone. unfold versionFlagNames, fieldFlagNames in Hnone.
  repeat match type of Hnone with
         | Forall _ (_ :: _) => apply Forall_cons in Hnone as [? Hnone]
         end.
  clear Hnone. eexists. split.
  { unfold versionCmd.RegisterFlags. do 13 reg_step. reflexivity. }
  cbn [flag.formal flag.actual flag.args flag.vars].
  split; [reflexivity|]. split; [apply registered_vars|]. split.
  - intros name f Hf.
    rewrite !lookup_insert_ne by (intros <-; clash). exact Hf.
  - unfold versionFlagNames, fieldFlagNames.
    repeat (apply List.Forall_cons; [|]); [..|apply List.Forall_nil];
      unfold versionCmd.testFlag, flag.Lookup, flag.Value_String, flag.deref;
      cbn [flag.formal flag.vars];
      rewrite ?lookup_insert_ne by (intros ?; discriminate); rewrite lookup_insert_eq;
      cbn [flag.Value];
      rewrite registered_vars, ?length_app; cbn [length];
      rewrite <- ?Nat.add_assoc; cbn [Nat.add];
      first [rewrite lookup_registered by lia | rewrite lookup_registered0];
      reflexivity.
Qed.

Lemma RegisterFlags_collision (fs : flag.FlagSet) :
  Exists (fun name => is_Some (flag.formal fs !! name)) versionFlagNames ->
  versionCmd.RegisterFlags fs = Panic "flag redefined".
Proof.
  intros Hex. unfold versionCmd.RegisterFlags.
  destruct (flag.formal fs !! "all") eqn:E1; [reg_panic|reg_step].
  destruct (flag.formal fs !! "a") eqn:E2; [reg_panic|reg_step].
  destruct (flag.formal fs !! "number") eqn:E3; [reg_panic|reg_step].
  destruct (flag.formal fs !! "n") eqn:E4; [reg_panic|reg_step].
  destruct (flag.formal fs !! "revision") eqn:E5; [reg_panic|reg_step].
  destruct (flag.formal fs !! "r") eqn:E6; [reg_panic|reg_step].
  destruct (flag.formal fs !! "time") eqn:E7; [reg_panic|reg_step].
  destruct (flag.formal fs !! "t") eqn:E8; [reg_panic|reg_step].
  destruct (flag.formal fs !! "modified") eqn:E9; [reg_panic|reg_step].
  destruct (flag.formal fs !! "m") eqn:E10; [reg_panic|reg_step].
  destruct (flag.formal fs !! "go-version") eqn:E11; [reg_panic|reg_step].
  destruct (flag.formal fs !! "g") eqn:E12; [reg_panic|reg_step].
  destruct (flag.formal fs !! "json") eqn:E13; [reg_panic|].
  exfalso. apply List.Exists_exists in Hex as (name & Hin & [f Hf]).
  unfold versionFlagNames, fieldFlagNames in Hin. cbn in Hin.
  repeat (destruct Hin as [<-|Hin]; [clash|]). exact Hin.
Qed.

Lemma uBool_eq (f : flagUndef.FlagSet) (name usage : string) (value : bool) :
  flagUndef.Bool f name value usage
  = match flag.Bool (flagUndef.flags f) name value usage with
    | Panic msg => Panic msg
    | Ok (p, flags') =>
        if flagUndef.setBefore f name then Panic "flag set before being defined"
        else Ok (p, flagUndef.mkFlagSet flags' (flagUndef.undef f))
    end.
Proof.
  unfold flagUndef.Bool, flag.Bool, flagUndef.BoolVar. cbn [flagUndef.flags].
  destruct (flag.BoolVar _ _ _ _ _); [|reflexivity].
  unfold flagUndef.setBefore. cbn [flagUndef.undef].
  destruct (negb _); reflexivity.
Qed.

Lemma uBoolVar_eq (f : flagUndef.FlagSet) (p : nat) (name usage : string)
    (value : bool) :
  flagUndef.BoolVar f p name value usage
  = match flag.BoolVar (flagUndef.flags f) p name value usage with
    | Panic msg => Panic msg
    | Ok flags' =>
        if flagUndef.setBefore f name then Panic "flag set before being defined"
        else Ok (flagUndef.mkFlagSet flags' (flagUndef.undef f))
    end.
Proof. reflexivity. Qed.

Lemma RegisterFlags_lift (fs : flagUndef.FlagSet) :
  Forall (fun name => flagUndef.setBefore fs name = false) versionFlagNames ->
  flagUndef.RegisterFlags fs
  = match versionCmd.RegisterFlags (flagUndef.flags fs) with
    | Panic msg => Panic msg
    | Ok flags' => Ok (flagUndef.mkFlagSet flags' (flagUndef.undef fs))
    end.
Proof.
  intros Hclear. unfold versionFlagNames, fieldFlagNames in Hclear.
  repeat match type of Hclear with
         | Forall _ (_ :: _) => apply Forall_cons in Hclear as [? Hclear]
         end.
  clear Hclear.
  unfold flagUndef.RegisterFlags, versionCmd.RegisterFlags.
  destruct fs as [fl un]. unfold flagUndef.setBefore in *.
  cbn [flagUndef.flags flagUndef.undef] in *.
  repeat
    (first [ rewrite uBool_eq | rewrite uBoolVar_eq ];
     cbn [flagUndef.flags flagUndef.undef];
     match goal with
     | |- context [flag.Bool ?f ?n ?v ?u] =>
         destruct (flag.Bool f n v u) as [[? ?]|?]
     | |- context [flag.BoolVar ?f ?p ?n ?v ?u] =>
         destruct (flag.BoolVar f p n v u)
     end;
     cbn [mbind result_bind]; [|reflexivity];
     unfold flagUndef.setBefore; cbn [flagUndef.flags flagUndef.undef];
     match goal with
     | Hc : negb (String.eqb (default _ (_ !! ?n)) _) = false
       |- context [negb (String.eqb (default _ (_ !! ?n)) _)] => rewrite Hc
     end;
     cbn [mbind result_bind]).
  reflexivity.
Qed.

(** One registration on a flag set with its record of early settings. *)
Ltac ureg fl un name :=
  first [ rewrite uBool_eq | rewrite uBoolVar_eq ];
  cbn [flagUndef.flags flagUndef.undef];
  destruct (flag.formal fl !! name) eqn:?;
  [ first [ erewrite Bool_defined by (first [look_up | done])
          | erewrite BoolVar_defined by (first [look_up | done]) ];
    eexists; split; [reflexivity | left; reflexivity]
  | reg_step; unfold flagUndef.setBefore; cbn [flagUndef.flags flagUndef.undef];
    destruct (negb (String.eqb (default EmptyString (un !! name)) EmptyString)) eqn:?;
    [ eexists; split; [reflexivity | right; reflexivity] | cbn [mbind result_bind] ] ].

Lemma RegisterFlags_early (fs : flagUndef.FlagSet) :
  Exists (fun name => is_Some (flag.formal (flagUndef.flags fs) !! name)
                      \/ flagUndef.setBefore fs name = true) versionFlagNames ->
  exists msg, flagUndef.RegisterFlags fs = Panic msg /\ registrationPanic msg.
Proof.
  intros Hex. unfold flagUndef.RegisterFlags, registrationPanic.
  destruct fs as [fl un]. unfold flagUndef.setBefore in Hex.
  cbn [flagUndef.flags flagUndef.undef] in Hex.
  ureg fl un "all". ureg fl un "a". ureg fl un "number". ureg fl un "n".
  ureg fl un "revision". ureg fl un "r". ureg fl un "time". ureg fl un "t".
  ureg fl un "modified". ureg fl un "m". ureg fl un "go-version". ureg fl un "g".
  rewrite uBool_eq. cbn [flagUndef.flags flagUndef.undef].
  destruct (flag.formal fl !! "json") eqn:?.
  { erewrite Bool_defined by (first [look_up | done]).
    eexists; split; [reflexivity | left; reflexivity]. }
  reg_step. unfold flagUndef.setBefore. cbn [flagUndef.undef].
  destruct (negb (String.eqb (default EmptyString (un !! "json")) EmptyString)) eqn:?.
  { eexists; split; [reflexivity | right; reflexivity]. }
  exfalso. apply List.Exists_exists in Hex as (name & Hin & Hname).
  unfold versionFlagNames, fieldFlagNames in Hin. cbn in Hin.
  repeat (destruct Hin as [<-|Hin];
          [destruct Hname as [[f Hf]|Hs]; [clash | congruence]|]).
  exact Hin.
Qed.

(** X9.  [RegisterFlags] on any flag set: when none of its thirteen names
    is defined or was set before, it succeeds, keeps the flags that were
    defined and those that were set, adds seven variables, and every one
    of its flags reads false; when one of the names is defined or was set
    before, it panics. *)
Theorem RegisterFlags_spec (fs : flagUndef.FlagSet) :
  (Forall (fun name => flag.formal (flagUndef.flags fs) !! name = None
                       /\ flagUndef.setBefore fs name = false) versionFlagNames ->
   exists fs',
     flagUndef.RegisterFlags fs = Ok fs'
     /\ versionCmd.RegisterFlags (flagUndef.flags fs) = Ok (flagUndef.flags fs')
     /\ flagUndef.undef fs' = flagUndef.undef fs
     /\ flag.actual (flagUndef.flags fs') = flag.actual (flagUndef.flags fs)
     /\ flag.vars (flagUndef.flags fs')
        = (flag.vars (flagUndef.flags fs) ++ replicate 7 false)%list
     /\ (forall name f, flag.formal (flagUndef.flags fs) !! name = Some f ->
                        flag.formal (flagUndef.flags fs') !! name = Some f)
     /\ Forall (fun name => versionCmd.testFlag (flagUndef.flags fs') name = false)
          versionFlagNames)
  /\ (Exists (fun name => is_Some (flag.formal (flagUndef.flags fs) !! name)
                          \/ flagUndef.setBefore fs name = true) versionFlagNames ->
      exists msg, flagUndef.RegisterFlags fs = Panic msg /\ registrationPanic msg).
Proof.
  split; [|apply RegisterFlags_early].
  intros Hall. apply Forall_and in Hall as [Hnone Hclear].
  destruct (RegisterFlags_fresh (flagUndef.flags fs) Hnone)
    as (flags' & Hreg & Hact & Hvars & Hkept & Hfalse).
  exists (flagUndef.mkFlagSet flags' (flagUndef.undef fs)).
  rewrite (RegisterFlags_lift fs Hclear), Hreg. cbn [flagUndef.flags flagUndef.undef].
  auto 10.
Qed.

Lemma RegisterFlags_spec_witness :
  (exists fs', flagUndef.RegisterFlags flagUndef.NewFlagSet = Ok fs'
               /\ flag.vars (flagUndef.flags fs') = replicate 7 false)
  /\ (exists msg, flagUndef.RegisterFlags (setEarly "json" "main.go:10") = Panic msg)
  /\ (exists msg, flagUndef.RegisterFlags (flagUndef.mkFlagSet newFlags ∅) = Panic msg).
Proof.
  split; [|split].
  - destruct (proj1 (RegisterFlags_spec flagUndef.NewFlagSet))
      as (fs' & Hok & _ & _ & _ & Hvars & _).
    + unfold versionFlagNames, fieldFlagNames.
      repeat (apply List.Forall_cons; [split; reflexivity|]). apply List.Forall_nil.
    + exists fs'. split; [exact Hok | exact Hvars].
  - destruct (proj2 (RegisterFlags_spec (setEarly "json" "main.go:10")))
      as (msg & Hmsg & _).
    + apply List.Exists_cons_hd. right. vm_compute. reflexivity.
    + exists msg. exact Hmsg.
  - destruct (proj2 (RegisterFlags_spec (flagUndef.mkFlagSet newFlags ∅)))
      as (msg & Hmsg & _).
    + apply List.Exists_cons_hd. left. eexists. vm_compute. reflexivity.
    + exists msg. exact Hmsg.
Defined.

(** ** Spellings of a flag *)

Lemma parseOne_decode (f : flag.FlagSet) (s : string) (rest : list string) :
  flag.parseOne f s rest = serve f s rest (decode (flag.formal f) s).
Proof.
  unfold flag.parseOne, decode, serve, flag.Value_Set.
  cbn [flag.formal flag.actual flag.args flag.vars].
  repeat case_match; simplify_eq; try reflexivity.
Qed.

Lemma newFlags_names (name : string) (fl : flag.Flag) :
  flag.formal newFlags !! name = Some fl ->
  In name versionFlagNames /\ flag.Name fl = name.
Proof.
  intros Hl.
  apply (map_Forall_lookup_1
           (fun name fl => In name versionFlagNames /\ flag.Name fl = name)
           (flag.formal newFlags) name fl); [|exact Hl].
  apply map_Forall_to_list.
  let l := eval vm_compute in (map_to_list (flag.formal newFlags)) in
  assert (map_to_list (flag.formal newFlags) = l) as -> by (vm_compute; reflexivity).
  repeat (apply List.Forall_cons; [split; [cbn; tauto | reflexivity]|]).
  apply List.Forall_nil.
Qed.

Lemma supplied_insert (f : flag.FlagSet) (name : string) (fl : flag.Flag)
    (rest : list string) (vars' : list bool) :
  tracked f -> flag.formal f !! name = Some fl ->
  fieldFlagSupplied (flag.mkFlagSet (flag.formal f) (<[name := fl]> (flag.actual f)) rest vars')
  <-> name <> "json" \/ fieldFlagSupplied f.
Proof.
  intros [Hformal Hactual] Hfl.
  assert (flag.Name fl = name) as Hname.
  { rewrite Hformal in Hfl. exact (proj2 (newFlags_names _ _ Hfl)). }
  clear Hformal.
  unfold fieldFlagSupplied. cbn [flag.actual]. split.
  - intros (k & fl' & Hk & Hjson).
    destruct (decide (name = k)) as [<-|Hne].
    + rewrite lookup_insert_eq in Hk. injection Hk as <-. left.
      rewrite <- Hname. exact Hjson.
    + rewrite lookup_insert_ne in Hk by exact Hne. right.
      exists k, fl'. split; assumption.
  - intros [Hjson | (k & fl' & Hk & Hjson)].
    + exists name, fl. rewrite lookup_insert_eq. split; [reflexivity|].
      rewrite Hname. exact Hjson.
    + destruct (decide (name = k)) as [<-|Hne].
      * exists name, fl. rewrite lookup_insert_eq. split; [reflexivity|].
        apply Hactual in Hk. rewrite Hfl in Hk. injection Hk as ->. exact Hjson.
      * exists k, fl'. rewrite lookup_insert_ne by exact Hne. split; assumption.
Qed.

Lemma anyFlag_insert (f : flag.FlagSet) (name : string) (fl : flag.Flag)
    (rest : list string) (vars' : list bool) :
  tracked f -> flag.formal f !! name = Some fl ->
  anyFlag (flag.mkFlagSet (flag.formal f) (<[name := fl]> (flag.actual f)) rest vars')
  = negb (String.eqb name "json") || anyFlag f.
Proof.
  intros Ht Hfl. apply eq_true_iff_eq.
  rewrite anyFlag_spec, (supplied_insert f name fl rest vars' Ht Hfl).
  rewrite orb_true_iff, negb_true_iff, anyFlag_spec. clear Ht Hfl.
  destruct (String.eqb_spec name "json") as [Heq|Hne]; split; intros [Hl|Hr];
    try (right; assumption); try (left; assumption);
    try contradiction; try discriminate.
  left. reflexivity.
Qed.

Lemma decode_SetTo (formal : gmap string flag.Flag) (s name : string) (fl : flag.Flag)
    (v : bool) :
  decode formal s = SetTo name fl v -> formal !! name = Some fl.
Proof.
  unfold decode. intros Hd. repeat case_match; simplify_eq; assumption.
Qed.

Lemma serve_tracked (f : flag.FlagSet) (s : string) (rest : list string) (r : request)
    (seen : bool) (g : flag.FlagSet) :
  tracked f ->
  (forall name fl v, r = SetTo name fl v -> flag.formal f !! name = Some fl) ->
  serve f s rest r = inl (seen, g) -> tracked g.
Proof.
  intros [Hformal Hactual] Hr.
  destruct r as [consumed| |name fl v]; cbn [serve]; intros Hg;
    [injection Hg as _ <- | discriminate Hg | injection Hg as _ <-];
    (split; cbn [flag.formal flag.actual]; [exact Hformal|]); [exact Hactual|].
  clear Hformal. intros k fl' Hk. destruct (decide (name = k)) as [<-|Hne].
  - rewrite lookup_insert_eq in Hk. injection Hk as <-. apply (Hr name fl v). reflexivity.
  - rewrite lookup_insert_ne in Hk by exact Hne. apply Hactual. exact Hk.
Qed.

Lemma sameRequest_refl (formal : gmap string flag.Flag) (s : string) :
  sameRequest formal (decode formal s) (decode formal s).
Proof.
  destruct (decode formal s) as [c|e|name fl v] eqn:Hd; cbn; try exact I.
  apply decode_SetTo in Hd. tauto.
Qed.

Lemma decode_spell (formal : gmap string flag.Flag) (double : bool) (name : string)
    (value : option string) :
  In name versionFlagNames ->
  decode formal (spell double name value)
  = match formal !! name with
    | None => Fail (errorString ("flag provided but not defined: -" +:+ name))
    | Some fl =>
        match strconv.ParseBool (default "true" value) with
        | None => Fail (errorString ("invalid boolean value for -" +:+ name))
        | Some v => SetTo name fl v
        end
    end.
Proof.
  unfold versionFlagNames, fieldFlagNames. cbn [In]. intros Hin.
  repeat (destruct Hin as [<-|Hin]; [destruct double, value; reflexivity|]).
  destruct Hin.
Qed.

Lemma aliases_json (n1 n2 : string) : aliases n1 n2 -> n1 = "json" <-> n2 = "json".
Proof.
  intros (fl1 & fl2 & H1 & H2 & Hv).
  destruct (newFlags_names _ _ H1) as [Hin1 _], (newFlags_names _ _ H2) as [Hin2 _].
  unfold versionFlagNames, fieldFlagNames in Hin1, Hin2. cbn [In] in Hin1, Hin2.
  repeat (destruct Hin1 as [<-|Hin1]; [|]); try contradiction;
    repeat (destruct Hin2 as [<-|Hin2]; [|]); try contradiction;
    vm_compute in H1, H2; simplify_eq; try (split; congruence); try discriminate Hv.
Qed.

Lemma anyFlag_args (f : flag.FlagSet) (rest : list string) :
  anyFlag (flag.mkFlagSet (flag.formal f) (flag.actual f) rest (flag.vars f)) = anyFlag f.
Proof. reflexivity. Qed.

Lemma serve_alike (f1 f2 : flag.FlagSet) (s1 s2 : string) (rest1 rest2 : list string)
    (r1 r2 : request) :
  tracked f1 -> tracked f2 -> agree f1 f2 ->
  sameRequest (flag.formal f1) r1 r2 ->
  match serve f1 s1 rest1 r1, serve f2 s2 rest2 r2 with
  | inl (seen1, g1), inl (seen2, g2) =>
      seen1 = seen2 /\ tracked g1 /\ tracked g2 /\ agree g1 g2
  | inr _, inr _ => True
  | _, _ => False
  end.
Proof.
  intros Ht1 Ht2 [Hvars Hany] Hsame.
  assert (flag.formal f2 = flag.formal f1) as Hformal
    by (destruct Ht1 as [-> _], Ht2 as [-> _]; reflexivity).
  destruct r1 as [c1|e1|n1 fl1 v1], r2 as [c2|e2|n2 fl2 v2]; cbn in Hsame;
    try contradiction; cbn [serve]; try exact I.
  - split; [reflexivity|]. split; [|split].
    + destruct Ht1 as [? ?]. split; assumption.
    + destruct Ht2 as [? ?]. split; assumption.
    + split; [exact Hvars | rewrite !anyFlag_args; exact Hany].
  - destruct Hsame as (H1 & H2 & Hval & <- & Hjson).
    rewrite <- Hformal in H2.
    split; [reflexivity|]. split; [|split].
    + apply (serve_tracked f1 s1 rest1 (SetTo n1 fl1 v1) true); [exact Ht1| |reflexivity].
      intros name fl v Heq. injection Heq as <- <- <-. exact H1.
    + apply (serve_tracked f2 s2 rest2 (SetTo n2 fl2 v1) true); [exact Ht2| |reflexivity].
      intros name fl v Heq. injection Heq as <- <- <-. exact H2.
    + split; cbn [flag.vars].
      * rewrite Hval, Hvars. reflexivity.
      * rewrite (anyFlag_insert f1 n1 fl1 _ _ Ht1 H1), (anyFlag_insert f2 n2 fl2 _ _ Ht2 H2).
        rewrite Hany. f_equal. f_equal. clear - Hjson.
        destruct (String.eqb_spec n1 "json") as [E1|E1],
                 (String.eqb_spec n2 "json") as [E2|E2]; try reflexivity.
        -- exfalso. apply E2, Hjson, E1.
        -- exfalso. apply E1, Hjson, E2.
Qed.

Lemma sameArg_request (formal : gmap string flag.Flag) (s1 s2 : string) :
  formal = flag.formal newFlags -> sameArg s1 s2 ->
  sameRequest formal (decode formal s1) (decode formal s2).
Proof.
  intros Hformal [s | d1 d2 n1 n2 value Halias]; [apply sameRequest_refl|].
  pose proof (aliases_json _ _ Halias) as Hjson.
  destruct Halias as (fl1 & fl2 & H1 & H2 & Hval).
  rewrite (decode_spell formal d1 n1 value) by exact (proj1 (newFlags_names _ _ H1)).
  rewrite (decode_spell formal d2 n2 value) by exact (proj1 (newFlags_names _ _ H2)).
  rewrite <- Hformal in H1, H2. clear Hformal. rewrite H1, H2.
  destruct (strconv.ParseBool (default "true" value)) as [v|]; cbn; [|exact I].
  repeat split; try assumption; apply Hjson.
Qed.

Lemma Parse_alike (a1 a2 : list string) :
  Forall2 sameArg a1 a2 ->
  forall f1 f2, tracked f1 -> tracked f2 -> agree f1 f2 ->
  alike (flag.Parse_loop f1 a1) (flag.Parse_loop f2 a2).
Proof.
  induction 1 as [|s1 s2 a1 a2 Hs Hrest IH]; intros f1 f2 Ht1 Ht2 Hag; cbn [flag.Parse_loop].
  - unfold alike. split; [|split].
    + destruct Ht1 as [? ?]. split; assumption.
    + destruct Ht2 as [? ?]. split; assumption.
    + destruct Hag as [Hvars Hany]. split; [exact Hvars | rewrite !anyFlag_args; exact Hany].
  - rewrite !parseOne_decode.
    assert (flag.formal f2 = flag.formal f1) as Hformal
      by (destruct Ht1 as [-> _], Ht2 as [-> _]; reflexivity).
    pose proof (sameArg_request (flag.formal f1) s1 s2 (proj1 Ht1) Hs) as Hreq.
    rewrite Hformal.
    pose proof (serve_alike f1 f2 s1 s2 a1 a2 _ _ Ht1 Ht2 Hag Hreq) as Hstep.
    destruct (serve f1 s1 a1 (decode (flag.formal f1) s1)) as [[seen1 g1]|e1],
             (serve f2 s2 a2 (decode (flag.formal f1) s2)) as [[seen2 g2]|e2];
      try contradiction; [|exact I].
    destruct Hstep as (<- & Hg1 & Hg2 & Hag').
    destruct seen1; [now apply IH|].
    unfold alike. repeat split; try apply Hg1; try apply Hg2; apply Hag'.
Qed.

Lemma aliasesb_true (n1 n2 : string) : aliasesb n1 n2 = true -> aliases n1 n2.
Proof.
  unfold aliasesb, aliases.
  destruct (flag.formal newFlags !! n1) as [fl1|]; [|discriminate].
  destruct (flag.formal newFlags !! n2) as [fl2|]; [|discriminate].
  intros Heq. exists fl1, fl2. split; [reflexivity|]. split; [reflexivity|].
  apply Nat.eqb_eq. exact Heq.
Qed.

Lemma tracked_newFlags : tracked newFlags.
Proof.
  split; [reflexivity|]. intros name fl Hk. exfalso.
  assert (flag.actual newFlags = ∅) as Hempty by (vm_compute; reflexivity).
  rewrite Hempty, lookup_empty in Hk. discriminate Hk.
Qed.

Lemma testFlag_agree (f1 f2 : flag.FlagSet) (name : string) :
  flag.formal f1 = flag.formal f2 -> flag.vars f1 = flag.vars f2 ->
  versionCmd.testFlag f1 name = versionCmd.testFlag f2 name.
Proof.
  intros Hformal Hvars.
  unfold versionCmd.testFlag, flag.Lookup, flag.Value_String, flag.deref.
  rewrite Hformal, Hvars. reflexivity.
Qed.

Lemma selected_alike (f1 f2 : flag.FlagSet) :
  tracked f1 -> tracked f2 -> agree f1 f2 -> selected f1 = selected f2.
Proof.
  intros [Hf1 _] [Hf2 _] [Hvars Hany].
  assert (flag.formal f1 = flag.formal f2) as Hformal by (rewrite Hf1, Hf2; reflexivity).
  clear Hf1 Hf2.
  unfold selected, renderOrder. cbn [map selects]. rewrite Hany.
  rewrite !(testFlag_agree f1 f2 _ Hformal Hvars). reflexivity.
Qed.

Section Aliases.

Context {T W : Type} `{VersionInfo T} `{Writer W}.
Variable json_Marshal : gmap string string -> string + error.

(** X10.  Spelling a flag by its long name or by its shorthand, with one
    dash or two, makes no difference: two argument lists that differ in such
    spellings only either both fail to parse or make the command behave the
    same. *)
Theorem aliases_interchangeable (a1 a2 : list string) :
  Forall2 sameArg a1 a2 ->
  match parsed a1, parsed a2 with
  | Some fs1, Some fs2 =>
      forall (v : T) (w : World W),
        versionCmd.Exec json_Marshal (versionCmd.mkConfig v fs1) w
        = versionCmd.Exec json_Marshal (versionCmd.mkConfig v fs2) w
  | None, None => True
  | _, _ => False
  end.
Proof.
  intros Hargs.
  pose proof (Parse_alike a1 a2 Hargs newFlags newFlags tracked_newFlags tracked_newFlags
                (conj eq_refl eq_refl)) as Halike.
  unfold parsed, flag.Parse.
  destruct (flag.Parse_loop newFlags a1) as [g1|e1],
           (flag.Parse_loop newFlags a2) as [g2|e2]; cbn in Halike; try contradiction;
    [|exact I].
  destruct Halike as (Ht1 & Ht2 & Hag). intros v w.
  apply Exec_selected. now apply selected_alike.
Qed.

End Aliases.

Lemma aliases_interchangeable_witness :
  versionCmd.Exec compactObject
    (versionCmd.mkConfig release (flagsAfter ["-r"; "--json"; "-m=false"; "rest"]))
    (fresh ([] : list string))
  = versionCmd.Exec compactObject
      (versionCmd.mkConfig release
         (flagsAfter ["--revision"; "--json"; "--modified=false"; "rest"]))
      (fresh ([] : list string)).
Proof.
  assert (Forall2 sameArg ["-r"; "--json"; "-m=false"; "rest"]
            ["--revision"; "--json"; "--modified=false"; "rest"]) as Hargs.
  { apply List.Forall2_cons.
    { apply (sameArg_alias false true "r" "revision" None).
      apply aliasesb_true. vm_compute. reflexivity. }
    apply List.Forall2_cons; [apply sameArg_same|].
    apply List.Forall2_cons.
    { apply (sameArg_alias false true "m" "modified" (Some "false")).
      apply aliasesb_true. vm_compute. reflexivity. }
    apply List.Forall2_cons; [apply sameArg_same|]. apply List.Forall2_nil. }
  pose proof (aliases_interchangeable (T:=staticInfo) (W:=list string) compactObject
                _ _ Hargs) as Hsame.
  assert (parsed ["-r"; "--json"; "-m=false"; "rest"]
          = Some (flagsAfter ["-r"; "--json"; "-m=false"; "rest"])) as H1
    by (vm_compute; reflexivity).
  assert (parsed ["--revision"; "--json"; "--modified=false"; "rest"]
          = Some (flagsAfter ["--revision"; "--json"; "--modified=false"; "rest"])) as H2
    by (vm_compute; reflexivity).
  rewrite H1, H2 in Hsame. apply Hsame.
Defined.

(** ** The example command and the constructors *)

Section Hello.

Context {W : Type} `{Writer W}.

(** X11.  The [hello] command writes its greeting, in one [Write], when
    given exactly one argument, and returns the error of that [Write] as it
    is; with no argument or more than one it writes nothing and returns an
    error that says which. *)
Theorem hello_Exec_spec (args : list string) (w : World W) :
  (forall name, args = [name] ->
     hello.Exec args w
     = let '(sink', (_, err)) := Write (sink w) ("Hello, " +:+ name +:+ "." +:+ newline) in
       (Ok err, mkWorld (calls w) sink'))
  /\ (args = [] ->
      hello.Exec args w = (Ok (Some (errorString "not enough arguments")), w))
  /\ ((2 <= length args)%nat ->
      hello.Exec args w = (Ok (Some (errorString "too many arguments")), w)).
Proof.
  split; [|split].
  - intros name ->. unfold hello.Exec, hello.Printf_hello, newline, mbind, M_bind, mret, M_ret.
    cbn [length hello.first].
    change (Z.of_nat 1 <? 1)%Z with false. change (1 <? Z.of_nat 1)%Z with false.
    cbn beta iota. destruct (Write _ _) as [? [? ?]]. reflexivity.
  - intros ->. reflexivity.
  - intros Hlen. unfold hello.Exec.
    replace (Z.of_nat (length args) <? 1)%Z with false by lia.
    replace (1 <? Z.of_nat (length args))%Z with true by lia. reflexivity.
Qed.

End Hello.

Lemma hello_Exec_spec_witness :
  hello.Exec ["world"] (fresh ([] : list string))
  = (Ok None, mkWorld [] ["Hello, world." +:+ newline])
  /\ hello.Exec ["a"; "b"] (fresh (Closed 0))
     = (Ok (Some (errorString "too many arguments")), fresh (Closed 0)).
Proof.
  split.
  - exact (proj1 (hello_Exec_spec ["world"] (fresh ([] : list string))) "world" eq_refl).
  - apply (proj2 (proj2 (hello_Exec_spec ["a"; "b"] (fresh (Closed 0))))). cbn. lia.
Defined.

Section Constructors.

Context {T W : Type} `{VersionInfo T} `{Writer W}.
Variable json_Marshal : gmap string string -> string + error.

(** X12.  A new version command writes to the given sink, to the standard
    output when none is given; no flag of it is set and every one reads
    false, so that before any argument is parsed it calls [Version] and no
    other method. *)
Theorem NewVersionCommand_spec (info : T) (out : option W) (stdout : W) :
  exists cfg : versionCmd.versionCmdConfig T,
    NewVersionCommand info out stdout = Ok (cfg, default stdout out)
    /\ versionCmd.version cfg = info
    /\ ~ fieldFlagSupplied (versionCmd.flags cfg)
    /\ Forall (fun name => versionCmd.testFlag (versionCmd.flags cfg) name = false)
         ("json" :: fieldFlagNames)
    /\ forall w : World W,
         calls (versionCmd.Exec json_Marshal cfg w).2 = (calls w ++ [FVersion])%list.
Proof.
  exists (versionCmd.mkConfig info newFlags).
  split.
  { unfold NewVersionCommand. rewrite RegisterFlags_ok. now destruct out. }
  split; [reflexivity|]. cbn [versionCmd.flags]. split.
  { apply anyFlag_false. vm_compute. reflexivity. }
  split.
  { unfold fieldFlagNames.
    repeat (apply List.Forall_cons; [vm_compute; reflexivity|]). apply List.Forall_nil. }
  intros w. apply (Exec_only_version json_Marshal info newFlags false).
  vm_compute. reflexivity.
Qed.

End Constructors.
